(** * GetStockData: the stock report service and its HTTP endpoint

    A shallow embedding of [app/services/stock_service.py], [app/main.py],
    [app/models/stock_models.py] and [app/core/config.py].

    - Python values that come back from the data provider are [pyval]s,
      floats are IEEE binary64 values ([spec_float]).
    - Exceptions are values of [exn]; a computation that may raise returns a
      [result]; a computation that also reads the clock, calls the provider
      or touches the service object lives in the monad [M].
    - [datetime.now()] is an oracle: the k-th reading of the clock is
      [clock env k]; the data provider is an oracle too, one [Provider] per
      request.
    - [str] is modelled byte-wise ([string]); a digit is one of '0'..'9'. *)

From Stdlib Require Import ZArith List String Ascii Lia Bool Arith.
From Stdlib Require Import Floats.SpecFloat.
From Stdlib Require Import DecimalString.
Import ListNotations.

Local Open Scope string_scope.
Local Open Scope Z_scope.

(* ================================================================= *)
(** ** Exceptions and results *)

Inductive exn : Type :=
| StockNotFoundError
| StockDataError
| KeyError
| IndexError
| ValueError
| TypeError
| OverflowError
| ValidationError
| ProviderError
| HTTPException (status_code : Z).

Inductive result (A : Type) : Type :=
| Ok (a : A)
| Raise (e : exn).
Arguments Ok {A} a.
Arguments Raise {A} e.

Module R.
Definition bind {A B} (r : result A) (f : A -> result B) : result B :=
  match r with
  | Ok a => f a
  | Raise e => Raise e
  end.

(** [try: body except e: handler e] *)
Definition try_except {A} (body : result A) (handler : exn -> result A) : result A :=
  match body with
  | Ok a => Ok a
  | Raise e => handler e
  end.
End R.

Declare Scope result_scope.
Delimit Scope result_scope with R.
Notation "x <- c ;; k" := (R.bind c (fun x => k))
  (at level 61, c at next level, right associativity) : result_scope.

(* ================================================================= *)
(** ** Python values and strings *)

Inductive pyval : Type :=
| VNone
| VStr (s : string)
| VInt (z : Z)
| VFloat (f : spec_float).

(** [bool(v)] *)
Definition truthy (v : pyval) : bool :=
  match v with
  | VNone => false
  | VStr s => negb (s =? EmptyString)%string
  | VInt z => negb (z =? 0)
  | VFloat (S754_zero _) => false
  | VFloat _ => true
  end.

Definition ascii_in (lo hi : nat) (c : ascii) : bool :=
  (lo <=? nat_of_ascii c)%nat && (nat_of_ascii c <=? hi)%nat.

Definition is_digit (c : ascii) : bool := ascii_in 48 57 c.

(** [str.isspace] on one-byte characters: TAB..CR, FS..US and the blank *)
Definition is_space (c : ascii) : bool :=
  ascii_in 9 13 c || ascii_in 28 32 c.

Fixpoint forall_chars (p : ascii -> bool) (s : string) : bool :=
  match s with
  | EmptyString => true
  | String c s' => p c && forall_chars p s'
  end.

(** [s.isdigit()]: at least one character, all of them digits *)
Definition isdigit (s : string) : bool :=
  negb (s =? EmptyString)%string && forall_chars is_digit s.

Fixpoint lstrip (s : string) : string :=
  match s with
  | EmptyString => EmptyString
  | String c s' => if is_space c then lstrip s' else s
  end.

Fixpoint rstrip (s : string) : string :=
  match s with
  | EmptyString => EmptyString
  | String c s' =>
      match rstrip s' with
      | EmptyString => if is_space c then EmptyString else String c EmptyString
      | r => String c r
      end
  end.

(** [s.strip()] *)
Definition strip (s : string) : string := rstrip (lstrip s).

(** [s.replace(c, '')] for a one-character [c] *)
Fixpoint remove_char (c : ascii) (s : string) : string :=
  match s with
  | EmptyString => EmptyString
  | String d s' => if Ascii.eqb c d then remove_char c s' else String d (remove_char c s')
  end.

(** [s.startswith(c)] for a one-character [c] *)
Definition startswith (s : string) (c : ascii) : bool :=
  match s with
  | String d _ => Ascii.eqb c d
  | EmptyString => false
  end.

Definition str_len (s : string) : Z := Z.of_nat (String.length s).

(** The part of the Python and pandas runtime that computes with floating
    point numbers; the service only moves these values around. *)
Record Runtime : Type := {
  (** [float(s)]; [None] stands for [ValueError] *)
  float_of_str : string -> option spec_float;
  (** [str(x)] for a float [x] *)
  str_of_float : spec_float -> string;
  (** [pd.to_numeric(col, errors='coerce').rolling(window=n).mean().iloc[-1]] *)
  rolling_mean_last : Z -> list pyval -> spec_float;
  (** [pd.to_numeric(col, errors='coerce').max()] and [.min()] *)
  series_max : list pyval -> spec_float;
  series_min : list pyval -> spec_float
}.

(** [int(x)] for a float [x]: truncation towards zero; infinities and NaN
    have no integer value. *)
Definition int_of_float (x : spec_float) : result Z :=
  match x with
  | S754_zero _ => Ok 0
  | S754_infinity _ => Raise OverflowError
  | S754_nan => Raise ValueError
  | S754_finite s m e =>
      let a := if 0 <=? e then Z.shiftl (Zpos m) e else Z.shiftr (Zpos m) (- e) in
      Ok (if s then - a else a)
  end.

Section Coercion.
Variable rt : Runtime.

(** [str(v)] *)
Definition py_str (v : pyval) : string :=
  match v with
  | VNone => "None"
  | VStr s => s
  | VInt z => NilZero.string_of_int (Z.to_int z)
  | VFloat f => str_of_float rt f
  end.

Definition py_float (s : string) : result spec_float :=
  match float_of_str rt s with
  | Some x => Ok x
  | None => Raise ValueError
  end.

(** [value is None or value == '' or str(value).strip() == '-'] *)
Definition is_blank (value : pyval) : bool :=
  match value with
  | VNone => true
  | VStr EmptyString => true
  | _ => (strip (py_str value) =? "-")%string
  end.

Definition except_ValueError_TypeError {A} (default : A) (e : exn) : result A :=
  match e with
  | ValueError | TypeError => Ok default
  | _ => Raise e
  end.

Definition _safe_get_float (value : pyval) (default : option spec_float)
  : result (option spec_float) :=
  R.try_except
    (if is_blank value then Ok default
     else (x <- py_float (remove_char "%" (remove_char "," (py_str value))) ;;
           Ok (Some x))%R)
    (except_ValueError_TypeError default).

Definition _safe_get_int (value : pyval) (default : option Z)
  : result (option Z) :=
  R.try_except
    (if is_blank value then Ok default
     else (x <- py_float (remove_char "," (py_str value)) ;;
           n <- int_of_float x ;;
           Ok (Some n))%R)
    (except_ValueError_TypeError default).
End Coercion.

(* ================================================================= *)
(** ** Dictionaries

    A Python [dict] keeps its keys in insertion order; assigning to a key
    that is present keeps its place. *)

Section Dict.
Context {K V : Type}.
Variable eqb : K -> K -> bool.

Fixpoint dict_get (d : list (K * V)) (k : K) : option V :=
  match d with
  | [] => None
  | (k', v) :: d' => if eqb k' k then Some v else dict_get d' k
  end.

Fixpoint dict_set (d : list (K * V)) (k : K) (v : V) : list (K * V) :=
  match d with
  | [] => [(k, v)]
  | (k', v') :: d' => if eqb k' k then (k', v) :: d' else (k', v') :: dict_set d' k v
  end.

Fixpoint dict_del (d : list (K * V)) (k : K) : list (K * V) :=
  match d with
  | [] => []
  | (k', v') :: d' => if eqb k' k then d' else (k', v') :: dict_del d' k
  end.

Definition dict_len (d : list (K * V)) : Z := Z.of_nat (List.length d).
End Dict.

(* ================================================================= *)
(** ** Data frames of the provider *)

Record DataFrame : Type := {
  columns : list string;
  data : list (list pyval)
}.

(** A row of a frame, labelled by the column names *)
Definition Series : Type := list (string * pyval).

(** [df.empty] *)
Definition df_empty (df : DataFrame) : bool :=
  match columns df, data df with
  | [], _ => true
  | _, [] => true
  | _, _ => false
  end.

Definition df_len (df : DataFrame) : Z := Z.of_nat (List.length (data df)).

Definition label (df : DataFrame) (r : list pyval) : Series := combine (columns df) r.

(** [row.get(k)] *)
Definition series_get (row : Series) (k : string) : pyval :=
  match dict_get String.eqb row k with
  | Some v => v
  | None => VNone
  end.

(** [row[k]] *)
Definition series_getitem (row : Series) (k : string) : result pyval :=
  match dict_get String.eqb row k with
  | Some v => Ok v
  | None => Raise KeyError
  end.

(** [df[k]] *)
Definition df_getitem (df : DataFrame) (k : string) : result (list pyval) :=
  if existsb (String.eqb k) (columns df)
  then Ok (map (fun r => series_get (label df r) k) (data df))
  else Raise KeyError.

(** [df[df[k] == s]] for a string [s] *)
Definition df_where_eq (df : DataFrame) (k s : string) : result DataFrame :=
  if existsb (String.eqb k) (columns df)
  then Ok {| columns := columns df;
             data := filter (fun r => match series_get (label df r) k with
                                      | VStr s' => String.eqb s' s
                                      | _ => false
                                      end) (data df) |}
  else Raise KeyError.

(** [df.iloc[0]] and [df.iloc[-1]] *)
Definition iloc_first (df : DataFrame) : result Series :=
  match data df with
  | r :: _ => Ok (label df r)
  | [] => Raise IndexError
  end.

Definition iloc_last (df : DataFrame) : result Series :=
  match rev (data df) with
  | r :: _ => Ok (label df r)
  | [] => Raise IndexError
  end.

(** The calls into akshare.  A request sees one answer per endpoint. *)
Record Provider : Type := {
  stock_individual_info_em : string -> result DataFrame;
  stock_financial_analysis_indicator : string -> result DataFrame;
  stock_zh_a_spot_em : result DataFrame;
  stock_zh_a_hist : string -> result DataFrame;
  stock_individual_fund_flow : string -> string -> result DataFrame;
  stock_board_concept_cons_em : string -> result DataFrame
}.

Inductive provider_call : Type :=
| CallInfo (symbol : string)
| CallFinancialIndicator (symbol : string)
| CallSpot
| CallHist (symbol : string)
| CallFundFlow (stock market : string)
| CallConcept (symbol : string).

(* ================================================================= *)
(** ** Settings (app/core/config.py) *)

Record Settings : Type := {
  CACHE_TTL : Z;
  MAX_CACHE_SIZE : Z
}.

Definition default_settings : Settings :=
  {| CACHE_TTL := 300; MAX_CACHE_SIZE := 1000 |}.

(* ================================================================= *)
(** ** Time

    A [datetime] is a number of microseconds; so is the difference of two.
    [timedelta.seconds] is the seconds component of the normalised
    (days, seconds, microseconds) triple: it lies in [0, 86400). *)

Definition datetime : Type := Z.

Definition timedelta_seconds (d : Z) : Z := (d mod 86400000000) / 1000000.

Definition seconds (n : Z) : Z := n * 1000000.

(* ================================================================= *)
(** ** Data models (app/models/stock_models.py) *)

Record FundamentalAnalysis : Type := {
  market_cap : option spec_float;
  circulating_market_cap : option spec_float;
  total_shares : option spec_float;
  circulating_shares : option spec_float;
  revenue_ttm : option spec_float;
  net_profit_ttm : option spec_float;
  gross_profit_margin : option spec_float;
  net_profit_margin : option spec_float;
  roe : option spec_float;
  roa : option spec_float;
  debt_to_equity_ratio : option spec_float;
  current_ratio : option spec_float;
  quick_ratio : option spec_float;
  cash_ratio : option spec_float;
  revenue_growth_yoy : option spec_float;
  net_profit_growth_yoy : option spec_float;
  inventory_turnover : option spec_float;
  accounts_receivable_turnover : option spec_float;
  total_asset_turnover : option spec_float
}.

Record ValuationAnalysis : Type := {
  pe_ratio_static : option spec_float;
  pe_ratio_dynamic : option spec_float;
  pe_ratio_ttm : option spec_float;
  pb_ratio : option spec_float;
  ps_ratio : option spec_float;
  ev_ebitda : option spec_float;
  peg_ratio : option spec_float;
  dividend_yield : option spec_float;
  industry_pe_median : option spec_float;
  industry_pb_median : option spec_float;
  pe_percentile_1y : option spec_float;
  pb_percentile_1y : option spec_float
}.

Record TechnicalAnalysis : Type := {
  current_price : option spec_float;
  price_change : option spec_float;
  price_change_percent : option spec_float;
  volume : option spec_float;
  turnover : option spec_float;
  turnover_rate : option spec_float;
  day_high : option spec_float;
  day_low : option spec_float;
  week_52_high : option spec_float;
  week_52_low : option spec_float;
  ma_5 : option spec_float;
  ma_10 : option spec_float;
  ma_20 : option spec_float;
  ma_60 : option spec_float;
  rsi_6 : option spec_float;
  rsi_12 : option spec_float;
  rsi_24 : option spec_float;
  macd_dif : option spec_float;
  macd_dea : option spec_float;
  macd_histogram : option spec_float;
  boll_upper : option spec_float;
  boll_middle : option spec_float;
  boll_lower : option spec_float
}.

Record SentimentAnalysis : Type := {
  main_net_inflow : option spec_float;
  super_large_net_inflow : option spec_float;
  large_net_inflow : option spec_float;
  medium_net_inflow : option spec_float;
  small_net_inflow : option spec_float;
  northbound_net_inflow : option spec_float;
  margin_trading_balance : option spec_float;
  short_selling_balance : option spec_float;
  institutional_holdings_ratio : option spec_float;
  analyst_rating_avg : option spec_float;
  analyst_target_price : option spec_float;
  analyst_coverage_count : option Z;
  news_sentiment_score : option spec_float;
  news_count_7d : option Z;
  concept_labels : option (list string);
  industry_label : option string
}.

Record StockReport : Type := {
  code : string;
  name : string;
  update_time : datetime;
  fundamental_analysis : FundamentalAnalysis;
  valuation_analysis : ValuationAnalysis;
  technical_analysis : TechnicalAnalysis;
  sentiment_analysis : SentimentAnalysis
}.

(** The keyword arguments a section model is built from: the float
    fields that the fetch has filled in, by field name. *)
Definition kwargs : Type := list (string * option spec_float).

Definition kw (d : kwargs) (k : string) : option spec_float :=
  match dict_get String.eqb d k with
  | Some v => v
  | None => None
  end.

(** [FundamentalAnalysis] built from the keyword arguments [d]; a field
    that is not given is [None]. *)
Definition FundamentalAnalysis_init (d : kwargs) : FundamentalAnalysis :=
  {| market_cap := kw d "market_cap";
     circulating_market_cap := kw d "circulating_market_cap";
     total_shares := kw d "total_shares";
     circulating_shares := kw d "circulating_shares";
     revenue_ttm := kw d "revenue_ttm";
     net_profit_ttm := kw d "net_profit_ttm";
     gross_profit_margin := kw d "gross_profit_margin";
     net_profit_margin := kw d "net_profit_margin";
     roe := kw d "roe";
     roa := kw d "roa";
     debt_to_equity_ratio := kw d "debt_to_equity_ratio";
     current_ratio := kw d "current_ratio";
     quick_ratio := kw d "quick_ratio";
     cash_ratio := kw d "cash_ratio";
     revenue_growth_yoy := kw d "revenue_growth_yoy";
     net_profit_growth_yoy := kw d "net_profit_growth_yoy";
     inventory_turnover := kw d "inventory_turnover";
     accounts_receivable_turnover := kw d "accounts_receivable_turnover";
     total_asset_turnover := kw d "total_asset_turnover" |}.

Definition ValuationAnalysis_init (d : kwargs) : ValuationAnalysis :=
  {| pe_ratio_static := kw d "pe_ratio_static";
     pe_ratio_dynamic := kw d "pe_ratio_dynamic";
     pe_ratio_ttm := kw d "pe_ratio_ttm";
     pb_ratio := kw d "pb_ratio";
     ps_ratio := kw d "ps_ratio";
     ev_ebitda := kw d "ev_ebitda";
     peg_ratio := kw d "peg_ratio";
     dividend_yield := kw d "dividend_yield";
     industry_pe_median := kw d "industry_pe_median";
     industry_pb_median := kw d "industry_pb_median";
     pe_percentile_1y := kw d "pe_percentile_1y";
     pb_percentile_1y := kw d "pb_percentile_1y" |}.

Definition TechnicalAnalysis_init (d : kwargs) : TechnicalAnalysis :=
  {| current_price := kw d "current_price";
     price_change := kw d "price_change";
     price_change_percent := kw d "price_change_percent";
     volume := kw d "volume";
     turnover := kw d "turnover";
     turnover_rate := kw d "turnover_rate";
     day_high := kw d "day_high";
     day_low := kw d "day_low";
     week_52_high := kw d "week_52_high";
     week_52_low := kw d "week_52_low";
     ma_5 := kw d "ma_5";
     ma_10 := kw d "ma_10";
     ma_20 := kw d "ma_20";
     ma_60 := kw d "ma_60";
     rsi_6 := kw d "rsi_6";
     rsi_12 := kw d "rsi_12";
     rsi_24 := kw d "rsi_24";
     macd_dif := kw d "macd_dif";
     macd_dea := kw d "macd_dea";
     macd_histogram := kw d "macd_histogram";
     boll_upper := kw d "boll_upper";
     boll_middle := kw d "boll_middle";
     boll_lower := kw d "boll_lower" |}.

(** The labels of a [List[str]] field must all be strings. *)
Fixpoint validate_str_list (l : list pyval) : result (list string) :=
  match l with
  | [] => Ok []
  | VStr s :: l' => (r <- validate_str_list l' ;; Ok (s :: r))%R
  | _ :: _ => Raise ValidationError
  end.

(** [SentimentAnalysis] built from keyword arguments: the float fields in
    [d] and, when that key is present, the value of [concept_labels] in
    [labels]. *)
Definition SentimentAnalysis_init (d : kwargs) (labels : option (list pyval))
  : result SentimentAnalysis :=
  (ls <- match labels with
         | None => Ok None
         | Some l => (r <- validate_str_list l ;; Ok (Some r))
         end ;;
   Ok {| main_net_inflow := kw d "main_net_inflow";
         super_large_net_inflow := kw d "super_large_net_inflow";
         large_net_inflow := kw d "large_net_inflow";
         medium_net_inflow := kw d "medium_net_inflow";
         small_net_inflow := kw d "small_net_inflow";
         northbound_net_inflow := kw d "northbound_net_inflow";
         margin_trading_balance := kw d "margin_trading_balance";
         short_selling_balance := kw d "short_selling_balance";
         institutional_holdings_ratio := kw d "institutional_holdings_ratio";
         analyst_rating_avg := kw d "analyst_rating_avg";
         analyst_target_price := kw d "analyst_target_price";
         analyst_coverage_count := None;
         news_sentiment_score := kw d "news_sentiment_score";
         news_count_7d := None;
         concept_labels := ls;
         industry_label := None |})%R.

(** [SentimentAnalysis()] *)
Definition SentimentAnalysis_default : SentimentAnalysis :=
  {| main_net_inflow := None; super_large_net_inflow := None;
     large_net_inflow := None; medium_net_inflow := None;
     small_net_inflow := None; northbound_net_inflow := None;
     margin_trading_balance := None; short_selling_balance := None;
     institutional_holdings_ratio := None; analyst_rating_avg := None;
     analyst_target_price := None; analyst_coverage_count := None;
     news_sentiment_score := None; news_count_7d := None;
     concept_labels := None; industry_label := None |}.

(** [StockReport.validate_stock_code] *)
Definition validate_stock_code (v : string) : result string :=
  if (v =? EmptyString)%string || negb (str_len v =? 6) || negb (isdigit v)
  then Raise ValueError
  else Ok v.

(** [StockReport(code=.., name=.., update_time=.., ...)]: [name] must be a
    string, [code] must pass the validator; a failed validation raises
    pydantic's [ValidationError]. *)
Definition StockReport_init (code_ : string) (name_ : pyval) (update_time_ : datetime)
    (fa : FundamentalAnalysis) (va : ValuationAnalysis)
    (ta : TechnicalAnalysis) (sa : SentimentAnalysis) : result StockReport :=
  match validate_stock_code code_, name_ with
  | Ok c, VStr n =>
      Ok {| code := c; name := n; update_time := update_time_;
            fundamental_analysis := fa; valuation_analysis := va;
            technical_analysis := ta; sentiment_analysis := sa |}
  | _, _ => Raise ValidationError
  end.

(* ================================================================= *)
(** ** The service object and the world around it *)

(** The dictionary [_get_stock_info] returns: item to value. *)
Definition info_dict : Type := list (pyval * pyval).

Definition float_eqb (x y : spec_float) : bool :=
  match x, y with
  | S754_zero a, S754_zero b => Bool.eqb a b
  | S754_infinity a, S754_infinity b => Bool.eqb a b
  | S754_nan, S754_nan => true
  | S754_finite a m e, S754_finite b m' e' => Bool.eqb a b && Pos.eqb m m' && (e =? e')
  | _, _ => false
  end.

(** Equality of dictionary keys; the service looks up string keys only. *)
Definition pyval_eqb (x y : pyval) : bool :=
  match x, y with
  | VNone, VNone => true
  | VStr s, VStr s' => String.eqb s s'
  | VInt z, VInt z' => z =? z'
  | VFloat f, VFloat f' => float_eqb f f'
  | _, _ => false
  end.

(** [d.get(k)] and [d.get(k, default)] *)
Definition info_get (d : info_dict) (k : string) (default : pyval) : pyval :=
  match dict_get pyval_eqb d (VStr k) with
  | Some v => v
  | None => default
  end.

Record State : Type := {
  (** [self._cache]: cache key to (report, time of caching) *)
  _cache : list (string * (StockReport * datetime));
  (** [self._last_clear_cache] *)
  _last_clear_cache : datetime;
  (** the table of [functools.lru_cache] around [_get_stock_info], the
      most recently used entry first *)
  _get_stock_info_cache : list (string * info_dict);
  (** how often the clock has been read *)
  ticks : nat;
  (** the calls made to the provider, the latest first *)
  calls : list provider_call
}.

Record Env : Type := {
  settings : Settings;
  clock : nat -> datetime;
  runtime : Runtime
}.

(** A computation on the service: it may raise, and it leaves a state
    behind either way. *)
Definition M (A : Type) : Type := State -> result A * State.

Definition ret {A} (a : A) : M A := fun st => (Ok a, st).

Definition bind {A B} (m : M A) (f : A -> M B) : M B :=
  fun st =>
    match m st with
    | (Ok a, st') => f a st'
    | (Raise e, st') => (Raise e, st')
    end.

Definition raise {A} (e : exn) : M A := fun st => (Raise e, st).

Definition lift {A} (r : result A) : M A := fun st => (r, st).

(** [try: body except Exception as e: handler e] *)
Definition try_except {A} (body : M A) (handler : exn -> M A) : M A :=
  fun st =>
    match body st with
    | (Ok a, st') => (Ok a, st')
    | (Raise e, st') => handler e st'
    end.

(** One branch of [asyncio.gather(..., return_exceptions=True)]: the
    exception of the branch is its result. *)
Definition return_exceptions {A} (m : M A) : M (result A) :=
  fun st => let (r, st') := m st in (Ok r, st').

Definition get_state : M State := fun st => (Ok st, st).

(** Assignments to the fields of the state *)
Definition with_cache (c : list (string * (StockReport * datetime))) (st : State) : State :=
  {| _cache := c;
     _last_clear_cache := _last_clear_cache st;
     _get_stock_info_cache := _get_stock_info_cache st;
     ticks := ticks st; calls := calls st |}.

Definition with_last_clear_cache (t : datetime) (st : State) : State :=
  {| _cache := _cache st;
     _last_clear_cache := t;
     _get_stock_info_cache := _get_stock_info_cache st;
     ticks := ticks st; calls := calls st |}.

Definition with_info_cache (c : list (string * info_dict)) (st : State) : State :=
  {| _cache := _cache st;
     _last_clear_cache := _last_clear_cache st;
     _get_stock_info_cache := c;
     ticks := ticks st; calls := calls st |}.

Definition with_ticks (n : nat) (st : State) : State :=
  {| _cache := _cache st;
     _last_clear_cache := _last_clear_cache st;
     _get_stock_info_cache := _get_stock_info_cache st;
     ticks := n; calls := calls st |}.

Definition with_calls (l : list provider_call) (st : State) : State :=
  {| _cache := _cache st;
     _last_clear_cache := _last_clear_cache st;
     _get_stock_info_cache := _get_stock_info_cache st;
     ticks := ticks st; calls := l |}.

Definition set_cache (c : list (string * (StockReport * datetime))) : M unit :=
  fun st => (Ok tt, with_cache c st).

Definition set_last_clear_cache (t : datetime) : M unit :=
  fun st => (Ok tt, with_last_clear_cache t st).

Definition set_info_cache (c : list (string * info_dict)) : M unit :=
  fun st => (Ok tt, with_info_cache c st).

(** A call into akshare: it is recorded, and answers [r]. *)
Definition call {A} (c : provider_call) (r : result A) : M A :=
  fun st => (r, with_calls (c :: calls st) st).

Declare Scope service_scope.
Delimit Scope service_scope with M.
Notation "x <- c ;; k" := (bind c (fun x => k))
  (at level 61, c at next level, right associativity) : service_scope.
Notation "c ;;; k" := (bind c (fun _ => k))
  (at level 61, right associativity) : service_scope.

(* ================================================================= *)
(** ** The stock service (app/services/stock_service.py) *)

Section Service.
Variable env : Env.
Variable ak : Provider.

(** [datetime.now()] *)
Definition now : M datetime :=
  fun st => (Ok (clock env (ticks st)), with_ticks (S (ticks st)) st).

Definition _get_cache_key (stock_code : string) : string :=
  "stock_" ++ stock_code.

Definition _is_cache_expired (cache_time : datetime) : M bool :=
  (t <- now ;;
   ret (timedelta_seconds (t - cache_time) >? CACHE_TTL (settings env)))%M.

(** The first loop of [_clear_expired_cache]: the keys whose entry is
    expired, in the order of the dictionary. *)
Fixpoint expired_keys_of (items : list (string * (StockReport * datetime)))
  : M (list string) :=
  match items with
  | [] => ret []
  | (key, (_, cache_time)) :: rest =>
      (expired <- _is_cache_expired cache_time ;;
       keys <- expired_keys_of rest ;;
       ret (if expired then key :: keys else keys))%M
  end.

Definition _clear_expired_cache : M unit :=
  (current_time <- now ;;
   self <- get_state ;;
   if timedelta_seconds (current_time - _last_clear_cache self)
        >? CACHE_TTL (settings env)
   then
     expired_keys <- expired_keys_of (_cache self) ;;
     self' <- get_state ;;
     set_cache (fold_left (dict_del String.eqb) expired_keys (_cache self')) ;;;
     set_last_clear_cache current_time
   else ret tt)%M.

(** The loop over [stock_info.iterrows()] *)
Fixpoint info_dict_of_rows (df : DataFrame) (rows : list (list pyval))
    (info : info_dict) : result info_dict :=
  match rows with
  | [] => Ok info
  | r :: rest =>
      (value <- series_getitem (label df r) "value" ;;
       item <- series_getitem (label df r) "item" ;;
       info_dict_of_rows df rest (dict_set pyval_eqb info item value))%R
  end.

(** The body of [_get_stock_info], under the decorator *)
Definition _get_stock_info_uncached (stock_code : string) : M info_dict :=
  try_except
    (stock_info <- call (CallInfo stock_code)
                        (stock_individual_info_em ak stock_code) ;;
     if df_empty stock_info then raise StockNotFoundError
     else lift (info_dict_of_rows stock_info (data stock_info) []))%M
    (fun _ => raise StockDataError).

(** [@lru_cache(maxsize=settings.MAX_CACHE_SIZE)]: a hit moves the entry
    to the front; a miss runs the body and stores a result that was
    returned (not an exception), dropping the least recently used entry
    when the table is full. *)
Definition _get_stock_info (stock_code : string) : M info_dict :=
  (self <- get_state ;;
   match dict_get String.eqb (_get_stock_info_cache self) stock_code with
   | Some info =>
       set_info_cache ((stock_code, info)
                         :: dict_del String.eqb (_get_stock_info_cache self) stock_code) ;;;
       ret info
   | None =>
       info <- _get_stock_info_uncached stock_code ;;
       self' <- get_state ;;
       set_info_cache (firstn (Z.to_nat (MAX_CACHE_SIZE (settings env)))
                              ((stock_code, info) :: _get_stock_info_cache self')) ;;;
       ret info
   end)%M.

(** [d[k] = self._safe_get_float(value)] *)
Definition set_float (d : kwargs) (k : string) (value : pyval) : result kwargs :=
  (x <- _safe_get_float (runtime env) value None ;;
   Ok (dict_set String.eqb d k x))%R.

(** The statements of [_get_fundamental_data] after the two look-ups:
    they fill [fundamental_data]. *)
Definition fundamental_data (stock_info : info_dict) (financial_analysis : DataFrame)
  : result kwargs :=
  (d <- set_float [] "market_cap" (info_get stock_info "总市值" VNone) ;;
   d <- set_float d "circulating_market_cap" (info_get stock_info "流通市值" VNone) ;;
   d <- set_float d "total_shares" (info_get stock_info "总股本" VNone) ;;
   d <- set_float d "circulating_shares" (info_get stock_info "流通股" VNone) ;;
   if negb (df_empty financial_analysis) then
     latest_data <- iloc_last financial_analysis ;;
     d <- set_float d "revenue_ttm" (series_get latest_data "营业收入") ;;
     d <- set_float d "net_profit_ttm" (series_get latest_data "净利润") ;;
     d <- set_float d "gross_profit_margin" (series_get latest_data "毛利率") ;;
     d <- set_float d "net_profit_margin" (series_get latest_data "净利率") ;;
     d <- set_float d "roe" (series_get latest_data "净资产收益率") ;;
     d <- set_float d "roa" (series_get latest_data "总资产收益率") ;;
     d <- set_float d "debt_to_equity_ratio" (series_get latest_data "资产负债比率") ;;
     d <- set_float d "current_ratio" (series_get latest_data "流动比率") ;;
     set_float d "quick_ratio" (series_get latest_data "速动比率")
   else Ok d)%R.

Definition _get_fundamental_data (stock_code : string) : M FundamentalAnalysis :=
  try_except
    (stock_info <- _get_stock_info stock_code ;;
     financial_analysis <- call (CallFinancialIndicator stock_code)
                                (stock_financial_analysis_indicator ak stock_code) ;;
     d <- lift (fundamental_data stock_info financial_analysis) ;;
     ret (FundamentalAnalysis_init d))%M
    (fun _ => ret (FundamentalAnalysis_init [])).

(** The dictionary literal [valuation_data] *)
Definition valuation_data (stock_info : info_dict) : result kwargs :=
  (d <- set_float [] "pe_ratio_static" (info_get stock_info "市盈率-静态" VNone) ;;
   d <- set_float d "pe_ratio_dynamic" (info_get stock_info "市盈率-动态" VNone) ;;
   d <- set_float d "pe_ratio_ttm" (info_get stock_info "市盈率TTM" VNone) ;;
   d <- set_float d "pb_ratio" (info_get stock_info "市净率" VNone) ;;
   d <- set_float d "ps_ratio" (info_get stock_info "市销率" VNone) ;;
   set_float d "dividend_yield" (info_get stock_info "股息率" VNone))%R.

Definition _get_valuation_data (stock_code : string) : M ValuationAnalysis :=
  try_except
    (stock_info <- _get_stock_info stock_code ;;
     d <- lift (valuation_data stock_info) ;;
     ret (ValuationAnalysis_init d))%M
    (fun _ => ret (ValuationAnalysis_init [])).

(** The statements of [_get_technical_data] after the second call: they
    fill [technical_data]. *)
Definition technical_data (stock_current hist_data : DataFrame) : result kwargs :=
  (d <- (if negb (df_empty stock_current) then
           current_row <- iloc_first stock_current ;;
           d <- set_float [] "current_price" (series_get current_row "最新价") ;;
           d <- set_float d "price_change" (series_get current_row "涨跌额") ;;
           d <- set_float d "price_change_percent" (series_get current_row "涨跌幅") ;;
           d <- set_float d "volume" (series_get current_row "成交量") ;;
           d <- set_float d "turnover" (series_get current_row "成交额") ;;
           d <- set_float d "turnover_rate" (series_get current_row "换手率") ;;
           d <- set_float d "day_high" (series_get current_row "最高") ;;
           set_float d "day_low" (series_get current_row "最低")
         else Ok []) ;;
   if negb (df_empty hist_data) && (60 <=? df_len hist_data) then
     close <- df_getitem hist_data "收盘" ;;
     let d := dict_set String.eqb d "ma_5"
                (Some (rolling_mean_last (runtime env) 5 close)) in
     let d := dict_set String.eqb d "ma_10"
                (Some (rolling_mean_last (runtime env) 10 close)) in
     let d := dict_set String.eqb d "ma_20"
                (Some (rolling_mean_last (runtime env) 20 close)) in
     let d := dict_set String.eqb d "ma_60"
                (Some (rolling_mean_last (runtime env) 60 close)) in
     let d := dict_set String.eqb d "week_52_high"
                (Some (series_max (runtime env) close)) in
     Ok (dict_set String.eqb d "week_52_low"
                (Some (series_min (runtime env) close)))
   else Ok d)%R.

Definition _get_technical_data (stock_code : string) : M TechnicalAnalysis :=
  try_except
    (current_data <- call CallSpot (stock_zh_a_spot_em ak) ;;
     stock_current <- lift (df_where_eq current_data "代码" stock_code) ;;
     hist_data <- call (CallHist stock_code) (stock_zh_a_hist ak stock_code) ;;
     d <- lift (technical_data stock_current hist_data) ;;
     ret (TechnicalAnalysis_init d))%M
    (fun _ => ret (TechnicalAnalysis_init [])).

(** ["sh" if stock_code.startswith('6') else "sz"] *)
Definition market_of (stock_code : string) : string :=
  if startswith stock_code "6" then "sh" else "sz".

(** The first inner [try] block of [_get_sentiment_data], after the call:
    the fields it adds to [sentiment_data]. *)
Definition fund_flow_data (flow_data : DataFrame) : result kwargs :=
  (if negb (df_empty flow_data) then
     latest_flow <- iloc_last flow_data ;;
     d <- set_float [] "main_net_inflow" (series_get latest_flow "主力净流入-净额") ;;
     d <- set_float d "super_large_net_inflow" (series_get latest_flow "超大单净流入-净额") ;;
     d <- set_float d "large_net_inflow" (series_get latest_flow "大单净流入-净额") ;;
     d <- set_float d "medium_net_inflow" (series_get latest_flow "中单净流入-净额") ;;
     set_float d "small_net_inflow" (series_get latest_flow "小单净流入-净额")
   else Ok [])%R.

(** The second inner [try] block, after the call: [concepts[:10]] *)
Definition concepts_of (stock_code : string) (concept_data : DataFrame)
  : result (list pyval) :=
  (concepts <- (if negb (df_empty concept_data) then
                  matching <- df_where_eq concept_data "代码" stock_code ;;
                  df_getitem matching "板块名称"
                else Ok []) ;;
   Ok (firstn 10 concepts))%R.

(** In the first inner [try] block an exception leaves [sentiment_data]
    as it was before the block: what can raise there comes before the
    first assignment, or is a helper that does not raise on the values of
    a frame (see [fund_flow_data_returns]). *)
Definition _get_sentiment_data (stock_code : string) : M SentimentAnalysis :=
  try_except
    (d <- try_except
            (flow_data <- call (CallFundFlow stock_code (market_of stock_code))
                               (stock_individual_fund_flow ak stock_code
                                  (market_of stock_code)) ;;
             lift (fund_flow_data flow_data))
            (fun _ => ret []) ;;
     concept_labels_ <- try_except
            (concept_data <- call (CallConcept "东方财富")
                                  (stock_board_concept_cons_em ak "东方财富") ;;
             lift (concepts_of stock_code concept_data))
            (fun _ => ret []) ;;
     lift (SentimentAnalysis_init d (Some concept_labels_)))%M
    (fun _ => ret SentimentAnalysis_default).

(** [x = Model() if isinstance(x, Exception) else x] *)
Definition or_default {A} (default : A) (r : result A) : A :=
  match r with
  | Ok a => a
  | Raise _ => default
  end.

(** Lines 236-241: the look-up in the cache *)
Definition cache_lookup (cache_key : string) : M (option StockReport) :=
  (self <- get_state ;;
   match dict_get String.eqb (_cache self) cache_key with
   | Some (cached_data, cache_time) =>
       expired <- _is_cache_expired cache_time ;;
       ret (if expired then None else Some cached_data)
   | None => ret None
   end)%M.

(** Lines 247-299: the body of the [try] statement *)
Definition build_report (stock_code cache_key : string) : M StockReport :=
  (stock_info <- _get_stock_info stock_code ;;
   let stock_name := info_get stock_info "股票简称" (VStr EmptyString) in
   if negb (truthy stock_name) then raise StockNotFoundError
   else
     fundamental <- return_exceptions (_get_fundamental_data stock_code) ;;
     valuation <- return_exceptions (_get_valuation_data stock_code) ;;
     technical <- return_exceptions (_get_technical_data stock_code) ;;
     sentiment <- return_exceptions (_get_sentiment_data stock_code) ;;
     update_time_ <- now ;;
     report <- lift (StockReport_init stock_code stock_name update_time_
                       (or_default (FundamentalAnalysis_init []) fundamental)
                       (or_default (ValuationAnalysis_init []) valuation)
                       (or_default (TechnicalAnalysis_init []) technical)
                       (or_default SentimentAnalysis_default sentiment)) ;;
     self <- get_state ;;
     (if dict_len (_cache self) <? MAX_CACHE_SIZE (settings env) then
        cache_time <- now ;;
        self' <- get_state ;;
        set_cache (dict_set String.eqb (_cache self') cache_key (report, cache_time))
      else ret tt) ;;;
     ret report)%M.

Definition get_full_stock_report (stock_code : string) : M StockReport :=
  let cache_key := _get_cache_key stock_code in
  (hit <- cache_lookup cache_key ;;
   match hit with
   | Some cached_data => ret cached_data
   | None =>
       _clear_expired_cache ;;;
       try_except
         (build_report stock_code cache_key)
         (fun e => match e with
                   | StockNotFoundError => raise StockNotFoundError
                   | _ => raise StockDataError
                   end)
   end)%M.

(* =============================================================== *)
(** ** The endpoint (app/main.py) *)

Inductive Response : Type :=
| Response200 (body : StockReport)
| ResponseError (status_code : Z).

(** The pattern of the query parameter: six digits *)
Definition query_pattern (code_ : string) : bool :=
  (str_len code_ =? 6) && forall_chars is_digit code_.

(** An [HTTPException] that leaves the handler becomes the response. *)
Definition get_stock_full_report (query_code : option string) : M Response :=
  match query_code with
  | None => ret (ResponseError 422)
  | Some code_ =>
      if negb (query_pattern code_) then ret (ResponseError 422)
      else
        try_except
          ((if (code_ =? EmptyString)%string || negb (str_len code_ =? 6) || negb (isdigit code_)
            then raise (HTTPException 400) else ret tt) ;;;
           report <- get_full_stock_report code_ ;;
           ret (Response200 report))%M
          (fun e => match e with
                    | StockNotFoundError => ret (ResponseError 404)
                    | StockDataError => ret (ResponseError 500)
                    | ValidationError => ret (ResponseError 400)
                    | _ => ret (ResponseError 500)
                    end)
  end.
End Service.

(** [StockService()]: an empty cache; the constructor reads the clock. *)
Definition StockService_init (env : Env) : State :=
  {| _cache := [];
     _last_clear_cache := clock env 0;
     _get_stock_info_cache := [];
     ticks := 1;
     calls := [] |}.

(** A request to the service: the ticker and what the provider answers
    while the request is served. *)
Definition request : Type := Provider * string.

(** The state after a sequence of calls of [get_full_stock_report] *)
Definition run_requests (env : Env) (reqs : list request) (st : State) : State :=
  fold_left (fun st rq => snd (get_full_stock_report env (fst rq) (snd rq) st)) reqs st.

(* ================================================================= *)
(** ** Concrete worlds used by the examples *)

Module Fixture.
(** A runtime that knows the literal [inf] and nothing else. *)
Definition rt : Runtime :=
  {| float_of_str := fun s => if (s =? "inf")%string
                              then Some (S754_infinity false) else None;
     str_of_float := fun _ => "nan";
     rolling_mean_last := fun _ _ => S754_nan;
     series_max := fun _ => S754_nan;
     series_min := fun _ => S754_nan |}.

(** The clock that advances by [step] microseconds per reading, from
    [start]. *)
Definition env_of (start step : Z) : Env :=
  {| settings := default_settings;
     clock := fun k => start + step * Z.of_nat k;
     runtime := rt |}.

(** A clock that starts at zero and advances by one microsecond per
    reading, and the fresh service under it *)
Definition env0 : Env := env_of 0 1.

Definition fresh : State := StockService_init env0.

Definition frame_of (cols : list string) (rows : list (list pyval)) : DataFrame :=
  {| columns := cols; data := rows |}.

Definition info_named (n : string) : DataFrame :=
  frame_of ["item"; "value"] [[VStr "股票简称"; VStr n]].

Definition no_frame : DataFrame := frame_of [] [].

(** A provider that knows every ticker under the name [n] and has no
    other data. *)
Definition ak_named (n : string) : Provider :=
  {| stock_individual_info_em := fun _ => Ok (info_named n);
     stock_financial_analysis_indicator := fun _ => Ok no_frame;
     stock_zh_a_spot_em := Ok (frame_of ["代码"] []);
     stock_zh_a_hist := fun _ => Ok no_frame;
     stock_individual_fund_flow := fun _ _ => Ok no_frame;
     stock_board_concept_cons_em := fun _ => Ok no_frame |}.

(** A provider that does not know any ticker: the basic information is
    an empty frame. *)
Definition ak_unknown : Provider :=
  {| stock_individual_info_em := fun _ => Ok no_frame;
     stock_financial_analysis_indicator := fun _ => Ok no_frame;
     stock_zh_a_spot_em := Ok (frame_of ["代码"] []);
     stock_zh_a_hist := fun _ => Ok no_frame;
     stock_individual_fund_flow := fun _ _ => Ok no_frame;
     stock_board_concept_cons_em := fun _ => Ok no_frame |}.

(** A provider that is down: every call raises. *)
Definition ak_down : Provider :=
  {| stock_individual_info_em := fun _ => Raise ProviderError;
     stock_financial_analysis_indicator := fun _ => Raise ProviderError;
     stock_zh_a_spot_em := Raise ProviderError;
     stock_zh_a_hist := fun _ => Raise ProviderError;
     stock_individual_fund_flow := fun _ _ => Raise ProviderError;
     stock_board_concept_cons_em := fun _ => Raise ProviderError |}.

(** The report the service builds for [c] from [ak_named n] at time [t]:
    every fetch comes back without data. *)
Definition report_of (c n : string) (t : datetime) : StockReport :=
  {| code := c; name := n; update_time := t;
     fundamental_analysis := FundamentalAnalysis_init [];
     valuation_analysis := ValuationAnalysis_init [];
     technical_analysis := TechnicalAnalysis_init [];
     sentiment_analysis :=
       {| main_net_inflow := None; super_large_net_inflow := None;
          large_net_inflow := None; medium_net_inflow := None;
          small_net_inflow := None; northbound_net_inflow := None;
          margin_trading_balance := None; short_selling_balance := None;
          institutional_holdings_ratio := None; analyst_rating_avg := None;
          analyst_target_price := None; analyst_coverage_count := None;
          news_sentiment_score := None; news_count_7d := None;
          concept_labels := Some []; industry_label := None |} |}.



Definition state_of (cache : list (string * (StockReport * datetime)))
    (last_clear : datetime) : State :=
  {| _cache := cache; _last_clear_cache := last_clear;
     _get_stock_info_cache := []; ticks := 0; calls := [] |}.






(** A service that holds one report, of 600519, cached at time 0 *)
Definition one_entry_state (last_clear : datetime) : State :=
  state_of [(_get_cache_key "600519", (report_of "600519" "A" 0, 0))] last_clear.
End Fixture.

(* ================================================================= *)
(** ** Time, dictionaries: basic facts *)

Lemma timedelta_seconds_range (d : Z) : 0 <= timedelta_seconds d < 86400.
Proof.
  unfold timedelta_seconds.
  pose proof (Z.mod_pos_bound d 86400000000 ltac:(lia)) as Hm.
  split.
  - apply Z.div_pos; lia.
  - apply Z.div_lt_upper_bound; lia.
Qed.

(** An age of at least [ttl + 1] seconds and less than a day has a seconds
    component above [ttl]. *)
Lemma expired_of_age (ttl d : Z) :
  seconds (ttl + 1) <= d < seconds 86400 ->
  (timedelta_seconds d >? ttl) = true.
Proof.
  unfold seconds, timedelta_seconds. intros [Hlo Hhi].
  destruct (Z_lt_le_dec d 0) as [Hneg | Hpos].
  - (* ttl + 1 is negative, and the component is not *)
    assert (0 <= (d mod 86400000000) / 1000000)
      by (apply Z.div_pos; [apply Z.mod_pos_bound|]; lia).
    apply Z.gtb_lt. lia.
  - rewrite Z.mod_small by lia.
    apply Z.gtb_lt.
    pose proof (Z.div_le_lower_bound d 1000000 (ttl + 1) ltac:(lia)) as H.
    assert (ttl + 1 <= d / 1000000) by (apply H; lia).
    lia.
Qed.


Section DictFacts.
Context {V : Type}.
Implicit Types (d : list (string * V)) (k : string) (v : V).

Lemma dict_get_set_same d k v :
  dict_get String.eqb (dict_set String.eqb d k v) k = Some v.
Proof.
  induction d as [| [k' v'] d IH]; simpl.
  - now rewrite String.eqb_refl.
  - destruct (String.eqb k' k) eqn:E; simpl; now rewrite E.
Qed.

Lemma dict_get_set_other d k k' v :
  k' <> k ->
  dict_get String.eqb (dict_set String.eqb d k v) k' = dict_get String.eqb d k'.
Proof.
  intros Hne. induction d as [| [k0 v0] d IH]; simpl.
  - destruct (String.eqb k k') eqn:E; [apply String.eqb_eq in E; congruence | reflexivity].
  - destruct (String.eqb k0 k) eqn:E; simpl.
    + apply String.eqb_eq in E. subst k0.
      destruct (String.eqb k k') eqn:E'; [apply String.eqb_eq in E'; congruence | reflexivity].
    + now rewrite IH.
Qed.

Lemma dict_get_In d k v :
  dict_get String.eqb d k = Some v -> In (k, v) d.
Proof.
  induction d as [| [k' v'] d IH]; simpl; [discriminate |].
  destruct (String.eqb k' k) eqn:E.
  - apply String.eqb_eq in E. intros [= ->]. subst. now left.
  - intros H. right. now apply IH.
Qed.

Lemma length_dict_set d k v :
  List.length (dict_set String.eqb d k v)
  = match dict_get String.eqb d k with
    | Some _ => List.length d
    | None => S (List.length d)
    end.
Proof.
  induction d as [| [k' v'] d IH]; simpl; [reflexivity |].
  destruct (String.eqb k' k); simpl; [reflexivity |].
  rewrite IH. now destruct (dict_get String.eqb d k).
Qed.

Lemma length_dict_del d k :
  (List.length (dict_del String.eqb d k) <= List.length d)%nat.
Proof.
  induction d as [| [k' v'] d IH]; simpl; [lia |].
  destruct (String.eqb k' k); simpl; lia.
Qed.

Lemma length_fold_dict_del keys d :
  (List.length (fold_left (dict_del String.eqb) keys d) <= List.length d)%nat.
Proof.
  revert d. induction keys as [| k keys IH]; intros d; simpl; [lia |].
  etransitivity; [apply IH | apply length_dict_del].
Qed.


Lemma Forall_dict_del (P : string * V -> Prop) d k :
  Forall P d -> Forall P (dict_del String.eqb d k).
Proof.
  intros Hd. induction Hd as [| [k' v'] d Hx Hd IH]; simpl.
  - constructor.
  - destruct (String.eqb k' k); [assumption | now constructor].
Qed.

Lemma Forall_fold_dict_del (P : string * V -> Prop) keys d :
  Forall P d -> Forall P (fold_left (dict_del String.eqb) keys d).
Proof.
  revert d. induction keys as [| k keys IH]; intros d Hd; simpl; [assumption |].
  apply IH. now apply Forall_dict_del.
Qed.

(** Deleting other keys leaves the entry of [k] alone. *)
Lemma dict_get_del_other d k k' :
  k' <> k ->
  dict_get String.eqb (dict_del String.eqb d k) k' = dict_get String.eqb d k'.
Proof.
  intros Hne. induction d as [| [k0 v0] d IH]; simpl; [reflexivity |].
  destruct (String.eqb k0 k) eqn:E; simpl.
  - apply String.eqb_eq in E. subst k0.
    destruct (String.eqb k k') eqn:E'; [apply String.eqb_eq in E'; congruence | reflexivity].
  - now rewrite IH.
Qed.

Lemma dict_get_fold_del_other keys d k' :
  ~ In k' keys ->
  dict_get String.eqb (fold_left (dict_del String.eqb) keys d) k'
  = dict_get String.eqb d k'.
Proof.
  revert d. induction keys as [| k keys IH]; intros d Hni; simpl; [reflexivity |].
  rewrite IH by (intros H; apply Hni; now right).
  apply dict_get_del_other. intros ->. apply Hni. now left.
Qed.
End DictFacts.

(* ================================================================= *)
(** ** What a computation leaves alone

    [resolved hist c info]: [info] is the dictionary that [_get_stock_info]
    builds from the answer of one of the providers in [hist] for ticker
    [c].  [frame hist st st']: from [st] to [st'] the report cache and the
    time of the last sweep are unchanged, the clock and the log of
    provider calls have only advanced, and the table of the decorator still
    holds resolved dictionaries only. *)

Definition resolved (hist : list Provider) (c : string) (info : info_dict) : Prop :=
  exists ak df,
    In ak hist /\
    stock_individual_info_em ak c = Ok df /\
    df_empty df = false /\
    info_dict_of_rows df (data df) [] = Ok info.

Definition memo_ok (hist : list Provider) (memo : list (string * info_dict)) : Prop :=
  Forall (fun e => resolved hist (fst e) (snd e)) memo.

Definition frame (hist : list Provider) (st st' : State) : Prop :=
  _cache st' = _cache st /\
  _last_clear_cache st' = _last_clear_cache st /\
  (ticks st <= ticks st')%nat /\
  (exists l, calls st' = (l ++ calls st)%list) /\
  (memo_ok hist (_get_stock_info_cache st) ->
   memo_ok hist (_get_stock_info_cache st')).

Lemma frame_refl hist st : frame hist st st.
Proof.
  unfold frame. repeat split; auto. now exists [].
Qed.

Lemma frame_trans hist st1 st2 st3 :
  frame hist st1 st2 -> frame hist st2 st3 -> frame hist st1 st3.
Proof.
  intros (Hc & Hl & Ht & [l Hp] & Hm) (Hc' & Hl' & Ht' & [l' Hp'] & Hm').
  unfold frame. repeat split; try congruence; try lia; auto.
  exists (l' ++ l)%list. rewrite Hp', Hp. now rewrite app_assoc.
Qed.

Lemma resolved_mono hist hist' c info :
  incl hist hist' -> resolved hist c info -> resolved hist' c info.
Proof.
  intros Hi (ak & df & Hin & H). exists ak, df. split; [now apply Hi | exact H].
Qed.

Lemma memo_ok_mono hist hist' memo :
  incl hist hist' -> memo_ok hist memo -> memo_ok hist' memo.
Proof.
  intros Hi. apply Forall_impl. intros e. now apply resolved_mono.
Qed.

(** [keeps hist m]: running [m] frames the state, whatever it returns. *)
Definition keeps (hist : list Provider) {A} (m : M A) : Prop :=
  forall st, frame hist st (snd (m st)).

(** [total m]: [m] returns a value, it never raises. *)
Definition total {A} (m : M A) : Prop :=
  forall st, exists a, fst (m st) = Ok a.

Section Keeps.
Variable hist : list Provider.

Lemma keeps_ret {A} (a : A) : keeps hist (ret a).
Proof. intros st. apply frame_refl. Qed.

Lemma keeps_raise {A} (e : exn) : keeps hist (@raise A e).
Proof. intros st. apply frame_refl. Qed.

Lemma keeps_lift {A} (r : result A) : keeps hist (lift r).
Proof. intros st. apply frame_refl. Qed.

Lemma keeps_get_state : keeps hist get_state.
Proof. intros st. apply frame_refl. Qed.

Lemma keeps_call {A} (c : provider_call) (r : result A) : keeps hist (call c r).
Proof.
  intros st. unfold frame, call; simpl. repeat split; auto. now exists [c].
Qed.

Lemma keeps_now env : keeps hist (now env).
Proof.
  intros st. unfold frame, now; simpl. repeat split; auto. now exists [].
Qed.

Lemma keeps_bind {A B} (m : M A) (f : A -> M B) :
  keeps hist m -> (forall a, keeps hist (f a)) -> keeps hist (bind m f).
Proof.
  intros Hm Hf st. unfold bind. specialize (Hm st).
  destruct (m st) as [[a | e] st1]; simpl in *; [| exact Hm].
  eapply frame_trans; [exact Hm | apply Hf].
Qed.

Lemma keeps_try_except {A} (m : M A) (h : exn -> M A) :
  keeps hist m -> (forall e, keeps hist (h e)) -> keeps hist (try_except m h).
Proof.
  intros Hm Hh st. unfold try_except. specialize (Hm st).
  destruct (m st) as [[a | e] st1]; simpl in *; [exact Hm |].
  eapply frame_trans; [exact Hm | apply Hh].
Qed.

Lemma keeps_return_exceptions {A} (m : M A) :
  keeps hist m -> keeps hist (return_exceptions m).
Proof.
  intros Hm st. unfold return_exceptions. specialize (Hm st).
  now destruct (m st) as [r st1].
Qed.

Lemma keeps_if {A} (b : bool) (m1 m2 : M A) :
  keeps hist m1 -> keeps hist m2 -> keeps hist (if b then m1 else m2).
Proof. now destruct b. Qed.
End Keeps.

Create HintDb keeps.

#[local] Hint Resolve keeps_ret keeps_raise keeps_lift keeps_get_state keeps_call
  keeps_now keeps_bind keeps_try_except keeps_return_exceptions keeps_if : keeps.

Lemma total_try_except_ret {A} (m : M A) (default : A) :
  total (try_except m (fun _ => ret default)).
Proof.
  intros st. unfold try_except, ret.
  destruct (m st) as [[a | e] st1]; simpl; eauto.
Qed.

(** Running a bind, step by step *)
Lemma bind_Ok {A B} (m : M A) (f : A -> M B) st a st1 :
  m st = (Ok a, st1) -> bind m f st = f a st1.
Proof. intros H. unfold bind. now rewrite H. Qed.

Lemma bind_Raise {A B} (m : M A) (f : A -> M B) st e st1 :
  m st = (Raise e, st1) -> bind m f st = (Raise e, st1).
Proof. intros H. unfold bind. now rewrite H. Qed.

(* ================================================================= *)
(** ** The coercion helpers *)

Lemma _safe_get_float_returns (rt : Runtime) (value : pyval) (default : option spec_float) :
  exists r, _safe_get_float rt value default = Ok r.
Proof.
  unfold _safe_get_float, R.try_except, R.bind, py_float.
  destruct (is_blank rt value); [eauto |].
  destruct (float_of_str rt _); simpl; eauto.
Qed.

Lemma _safe_get_float_blank (rt : Runtime) (value : pyval) (default : option spec_float) :
  is_blank rt value = true -> _safe_get_float rt value default = Ok default.
Proof. intros H. unfold _safe_get_float. now rewrite H. Qed.

Lemma _safe_get_float_parsed (rt : Runtime) (value : pyval) (default : option spec_float) :
  is_blank rt value = false ->
  _safe_get_float rt value default
  = Ok (match float_of_str rt (remove_char "%" (remove_char "," (py_str rt value))) with
        | Some x => Some x
        | None => default
        end).
Proof.
  intros H. unfold _safe_get_float, R.try_except, R.bind, py_float. rewrite H.
  now destruct (float_of_str rt _).
Qed.

Lemma _safe_get_int_blank (rt : Runtime) (value : pyval) (default : option Z) :
  is_blank rt value = true -> _safe_get_int rt value default = Ok default.
Proof. intros H. unfold _safe_get_int. now rewrite H. Qed.

(** [None], the empty string and a dash between blanks are blank. *)
Lemma is_blank_None (rt : Runtime) : is_blank rt VNone = true.
Proof. reflexivity. Qed.

Lemma is_blank_empty (rt : Runtime) : is_blank rt (VStr EmptyString) = true.
Proof. reflexivity. Qed.

Lemma is_blank_dash (rt : Runtime) (value : pyval) :
  strip (py_str rt value) = "-" -> is_blank rt value = true.
Proof.
  intros H. unfold is_blank. rewrite H.
  destruct value as [| [| c s] | z | f]; reflexivity.
Qed.

Lemma set_float_returns (env : Env) (d : kwargs) (k : string) (value : pyval) :
  exists x, set_float env d k value = Ok (dict_set String.eqb d k x).
Proof.
  destruct (_safe_get_float_returns (runtime env) value None) as [x Hx].
  exists x. unfold set_float, R.bind. now rewrite Hx.
Qed.

(* ================================================================= *)
(** ** [_get_stock_info] *)

Lemma Forall_take {A} (P : A -> Prop) (n : nat) (l : list A) :
  Forall P l -> Forall P (firstn n l).
Proof.
  intros H. revert n. induction H as [| x l Hx Hl IH]; intros [| n]; simpl;
    constructor; auto.
Qed.

Section GetStockInfo.
Variable env : Env.
Variable ak : Provider.

Lemma _get_stock_info_hit stock_code st info :
  dict_get String.eqb (_get_stock_info_cache st) stock_code = Some info ->
  _get_stock_info env ak stock_code st
  = (Ok info,
     with_info_cache ((stock_code, info)
                        :: dict_del String.eqb (_get_stock_info_cache st) stock_code) st).
Proof.
  intros H. unfold _get_stock_info, bind, get_state. now rewrite H.
Qed.

(** The state after the provider has been asked for the basic
    information of [stock_code] *)
Definition asked (stock_code : string) (st : State) : State :=
  with_calls (CallInfo stock_code :: calls st) st.

Lemma _get_stock_info_miss stock_code st :
  dict_get String.eqb (_get_stock_info_cache st) stock_code = None ->
  _get_stock_info env ak stock_code st
  = match stock_individual_info_em ak stock_code with
    | Ok df =>
        if df_empty df then (Raise StockDataError, asked stock_code st)
        else match info_dict_of_rows df (data df) [] with
             | Ok info =>
                 (Ok info,
                  with_info_cache
                    (firstn (Z.to_nat (MAX_CACHE_SIZE (settings env)))
                            ((stock_code, info) :: _get_stock_info_cache st))
                    (asked stock_code st))
             | Raise _ => (Raise StockDataError, asked stock_code st)
             end
    | Raise _ => (Raise StockDataError, asked stock_code st)
    end.
Proof.
  intros H.
  unfold _get_stock_info, _get_stock_info_uncached, bind, get_state, try_except,
    call, raise, lift, asked.
  rewrite H.
  destruct (stock_individual_info_em ak stock_code) as [df | e]; [| reflexivity].
  destruct (df_empty df); [reflexivity |].
  destruct (info_dict_of_rows df (data df) []); reflexivity.
Qed.

(** It raises nothing but [StockDataError]. *)
Lemma _get_stock_info_raises stock_code st e st' :
  _get_stock_info env ak stock_code st = (Raise e, st') -> e = StockDataError.
Proof.
  destruct (dict_get String.eqb (_get_stock_info_cache st) stock_code) as [info |] eqn:E.
  - rewrite (_get_stock_info_hit _ _ _ E). discriminate.
  - rewrite (_get_stock_info_miss _ _ E).
    destruct (stock_individual_info_em ak stock_code) as [df | e0]; [| congruence].
    destruct (df_empty df); [congruence |].
    destruct (info_dict_of_rows df (data df) []); congruence.
Qed.

Variable hist : list Provider.
Hypothesis ak_in_hist : In ak hist.

Lemma keeps_get_stock_info stock_code : keeps hist (_get_stock_info env ak stock_code).
Proof.
  intros st.
  destruct (dict_get String.eqb (_get_stock_info_cache st) stock_code) as [info |] eqn:E.
  - rewrite (_get_stock_info_hit _ _ _ E). simpl.
    unfold frame; simpl. repeat split; auto; [now exists [] |].
    intros Hm. constructor.
    + apply dict_get_In in E.
      unfold memo_ok in Hm. rewrite Forall_forall in Hm. exact (Hm _ E).
    + now apply Forall_dict_del.
  - rewrite (_get_stock_info_miss _ _ E).
    assert (Hasked : frame hist st (asked stock_code st)).
    { unfold frame, asked; simpl. repeat split; auto. now exists [CallInfo stock_code]. }
    destruct (stock_individual_info_em ak stock_code) as [df | e0] eqn:Edf; [| exact Hasked].
    destruct (df_empty df) eqn:Eempty; [exact Hasked |].
    destruct (info_dict_of_rows df (data df) []) as [info | e1] eqn:Einfo; [| exact Hasked].
    unfold frame, asked; simpl. repeat split; auto; [now exists [CallInfo stock_code] |].
    intros Hm. apply Forall_take. constructor; [| exact Hm].
    simpl. exists ak, df. auto.
Qed.

(** What it returns is resolved, when the table holds resolved
    dictionaries. *)
Lemma _get_stock_info_resolved stock_code st info st' :
  memo_ok hist (_get_stock_info_cache st) ->
  _get_stock_info env ak stock_code st = (Ok info, st') ->
  resolved hist stock_code info.
Proof.
  intros Hm.
  destruct (dict_get String.eqb (_get_stock_info_cache st) stock_code) as [info0 |] eqn:E.
  - rewrite (_get_stock_info_hit _ _ _ E). intros [= <- _].
    apply dict_get_In in E.
    unfold memo_ok in Hm. rewrite Forall_forall in Hm. exact (Hm _ E).
  - rewrite (_get_stock_info_miss _ _ E).
    destruct (stock_individual_info_em ak stock_code) as [df | e0] eqn:Edf; [| discriminate].
    destruct (df_empty df) eqn:Eempty; [discriminate |].
    destruct (info_dict_of_rows df (data df) []) as [info1 | e1] eqn:Einfo; [| discriminate].
    intros [= <- _]. exists ak, df. auto.
Qed.
End GetStockInfo.

#[local] Hint Resolve keeps_get_stock_info : keeps.

(* ================================================================= *)
(** ** The four fetches *)

Ltac keeps_step :=
  first
    [ apply keeps_ret | apply keeps_raise | apply keeps_lift | apply keeps_get_state
    | apply keeps_call | apply keeps_now
    | apply keeps_get_stock_info; assumption
    | apply keeps_return_exceptions
    | apply keeps_if
    | apply keeps_try_except
    | apply keeps_bind ].

Ltac keeps_tac := repeat (intros; cbv zeta; keeps_step).

Section Fetches.
Variable env : Env.
Variable ak : Provider.
Variable hist : list Provider.
Hypothesis ak_in_hist : In ak hist.

Lemma keeps_get_fundamental_data c : keeps hist (_get_fundamental_data env ak c).
Proof. unfold _get_fundamental_data. keeps_tac. Qed.

Lemma keeps_get_valuation_data c : keeps hist (_get_valuation_data env ak c).
Proof. unfold _get_valuation_data. keeps_tac. Qed.

Lemma keeps_get_technical_data c : keeps hist (_get_technical_data env ak c).
Proof. unfold _get_technical_data. keeps_tac. Qed.

Lemma keeps_get_sentiment_data c : keeps hist (_get_sentiment_data env ak c).
Proof. unfold _get_sentiment_data. keeps_tac. Qed.

(** Each fetch catches what is raised inside it. *)
Lemma total_get_fundamental_data c : total (_get_fundamental_data env ak c).
Proof. apply total_try_except_ret. Qed.

Lemma total_get_valuation_data c : total (_get_valuation_data env ak c).
Proof. apply total_try_except_ret. Qed.

Lemma total_get_technical_data c : total (_get_technical_data env ak c).
Proof. apply total_try_except_ret. Qed.

Lemma total_get_sentiment_data c : total (_get_sentiment_data env ak c).
Proof. apply total_try_except_ret. Qed.
End Fetches.

(* ================================================================= *)
(** ** The cache: look-up and sweep *)

Section Cache.
Variable env : Env.

Definition ttl : Z := CACHE_TTL (settings env).

(** The test of [_is_cache_expired] at the k-th reading of the clock *)
Definition expired_at (k : nat) (cache_time : datetime) : bool :=
  timedelta_seconds (clock env k - cache_time) >? ttl.

Lemma _is_cache_expired_eq cache_time st :
  _is_cache_expired env cache_time st
  = (Ok (expired_at (ticks st) cache_time), with_ticks (S (ticks st)) st).
Proof. reflexivity. Qed.

Lemma cache_lookup_absent key st :
  dict_get String.eqb (_cache st) key = None ->
  cache_lookup env key st = (Ok None, st).
Proof.
  intros H. unfold cache_lookup, bind, get_state, ret. now rewrite H.
Qed.

Lemma cache_lookup_present key st r t :
  dict_get String.eqb (_cache st) key = Some (r, t) ->
  cache_lookup env key st
  = (Ok (if expired_at (ticks st) t then None else Some r),
     with_ticks (S (ticks st)) st).
Proof.
  intros H. unfold cache_lookup, bind, get_state, ret. now rewrite H.
Qed.

(** The keys that the first loop of the sweep collects when it starts at
    the n-th reading of the clock *)
Fixpoint expired_keys_at (n : nat) (items : list (string * (StockReport * datetime)))
  : list string :=
  match items with
  | [] => []
  | (key, (_, cache_time)) :: rest =>
      if expired_at n cache_time
      then key :: expired_keys_at (S n) rest
      else expired_keys_at (S n) rest
  end.

Lemma expired_keys_of_eq items st :
  expired_keys_of env items st
  = (Ok (expired_keys_at (ticks st) items),
     with_ticks (List.length items + ticks st) st).
Proof.
  revert st. induction items as [| [key [r t]] rest IH]; intros st.
  - destruct st; reflexivity.
  - cbn [expired_keys_of expired_keys_at].
    unfold bind at 1. rewrite _is_cache_expired_eq.
    unfold bind at 1. rewrite IH. unfold ret; simpl.
    unfold with_ticks; simpl. rewrite Nat.add_succ_r.
    now destruct (expired_at (ticks st) t).
Qed.

(** The cache after a sweep that starts at the n-th reading *)
Definition swept_cache (n : nat) (cache : list (string * (StockReport * datetime)))
  : list (string * (StockReport * datetime)) :=
  fold_left (dict_del String.eqb) (expired_keys_at (S n) cache) cache.

Definition sweep_due (st : State) : bool :=
  timedelta_seconds (clock env (ticks st) - _last_clear_cache st) >? ttl.

Lemma _clear_expired_cache_eq st :
  _clear_expired_cache env st
  = if sweep_due st
    then (Ok tt,
          with_last_clear_cache (clock env (ticks st))
            (with_cache (swept_cache (ticks st) (_cache st))
               (with_ticks (List.length (_cache st) + S (ticks st)) st)))
    else (Ok tt, with_ticks (S (ticks st)) st).
Proof.
  unfold _clear_expired_cache, sweep_due, ttl.
  unfold bind at 1. unfold now at 1.
  unfold bind at 1. unfold get_state at 1. cbn [_last_clear_cache with_ticks].
  destruct (_ >? _); [| reflexivity].
  unfold bind at 1. rewrite expired_keys_of_eq. cbn [_cache with_ticks ticks].
  reflexivity.
Qed.

(** The state after the sweep: entries are only removed. *)
Lemma _clear_expired_cache_shrinks st :
  let st' := snd (_clear_expired_cache env st) in
  fst (_clear_expired_cache env st) = Ok tt /\
  _get_stock_info_cache st' = _get_stock_info_cache st /\
  calls st' = calls st /\
  (ticks st <= ticks st')%nat /\
  (List.length (_cache st') <= List.length (_cache st))%nat /\
  (forall P, Forall P (_cache st) -> Forall P (_cache st')).
Proof.
  rewrite _clear_expired_cache_eq.
  destruct (sweep_due st); simpl; repeat split; auto; try lia.
  - apply length_fold_dict_del.
  - intros P. apply Forall_fold_dict_del.
Qed.
End Cache.

(* ================================================================= *)
(** ** Building a report *)

(** The log of provider calls has grown from [st] to [st']. *)
Definition called (st st' : State) : Prop :=
  exists l, l <> [] /\ calls st' = (l ++ calls st)%list.

Lemma called_call c st : called st (with_calls (c :: calls st) st).
Proof. exists [c]. split; [discriminate | reflexivity]. Qed.

Lemma called_frame hist st1 st2 st3 :
  called st1 st2 -> frame hist st2 st3 -> called st1 st3.
Proof.
  intros (l & Hl & H) (_ & _ & _ & [l' H'] & _).
  exists (l' ++ l)%list. split.
  - intros E. apply app_eq_nil in E. now destruct E.
  - rewrite H', H. now rewrite app_assoc.
Qed.

Lemma frame_called hist st1 st2 st3 :
  frame hist st1 st2 -> called st2 st3 -> called st1 st3.
Proof.
  intros (_ & _ & _ & [l H] & _) (l' & Hl' & H').
  exists (l' ++ l)%list. split.
  - intros E. apply app_eq_nil in E. now destruct E.
  - rewrite H', H. now rewrite app_assoc.
Qed.


Section BuildReport.
Variable env : Env.
Variable ak : Provider.
Variable hist : list Provider.
Hypothesis ak_in_hist : In ak hist.

(** The fundamental fetch asks the provider at least once. *)
Lemma called_get_fundamental_data c st :
  called st (snd (_get_fundamental_data env ak c st)).
Proof.
  unfold _get_fundamental_data, try_except.
  destruct (dict_get String.eqb (_get_stock_info_cache st) c) as [info |] eqn:E.
  - unfold bind at 1. rewrite (_get_stock_info_hit _ _ _ _ _ E).
    set (st1 := with_info_cache _ st).
    match goal with
    | |- context [bind (call ?cl ?r) ?f st1] =>
        assert (Hk : forall a, keeps hist (f a)) by keeps_tac;
        unfold bind at 1; unfold call at 1;
        destruct r as [df | e]
    end.
    + specialize (Hk df (with_calls (CallFinancialIndicator c :: calls st1) st1)).
      match goal with
      | |- context [let (_, _) := ?x in _] => destruct x as [[a | e] st2]
      end; simpl in *;
        (eapply called_frame; [| exact Hk]);
        (exists [CallFinancialIndicator c]; split; [discriminate | reflexivity]).
    + simpl. exists [CallFinancialIndicator c]; split; [discriminate | reflexivity].
  - unfold bind at 1.
    pose proof (_get_stock_info_miss env ak c st E) as Hmiss.
    assert (Hasked : called st (asked c st)) by apply called_call.
    destruct (_get_stock_info env ak c st) as [[info | e] st1] eqn:E1.
    + assert (Hst1 : called st st1).
      { destruct (stock_individual_info_em ak c) as [df | e0]; [| discriminate].
        destruct (df_empty df); [discriminate |].
        destruct (info_dict_of_rows df (data df) []); [| discriminate].
        injection Hmiss as _ ->.
        exists [CallInfo c]; split; [discriminate | reflexivity]. }
      match goal with
      | |- context [bind ?m ?f st1] =>
          assert (Hk : keeps hist (bind m f)) by keeps_tac;
          specialize (Hk st1);
          destruct (bind m f st1) as [[a | e] st2]
      end; simpl in *; eapply called_frame; eauto.
    + simpl.
      destruct (stock_individual_info_em ak c) as [df | e0].
      * destruct (df_empty df); [injection Hmiss as _ ->; exact Hasked |].
        destruct (info_dict_of_rows df (data df) []);
          [discriminate | injection Hmiss as _ ->; exact Hasked].
      * injection Hmiss as _ ->; exact Hasked.
Qed.
(** The state in which [build_report] ends when it has built [r] in
    state [st5]: one reading of the clock for [update_time], and, under
    the size guard, one more for the cache entry. *)
Definition stored (key : string) (r : StockReport) (st5 : State) : State :=
  if dict_len (_cache st5) <? MAX_CACHE_SIZE (settings env)
  then with_cache (dict_set String.eqb (_cache st5) key (r, clock env (S (ticks st5))))
                  (with_ticks (S (S (ticks st5))) st5)
  else with_ticks (S (ticks st5)) st5.

Ltac run_fetch K C :=
  unfold bind at 1; unfold return_exceptions at 1;
  match goal with
  | |- context [let (_, _) := ?m ?st in _] =>
      pose proof (K st) as ?; try pose proof (C st) as ?;
      destruct (m st) as [? ?]
  end; simpl snd in *; cbv iota beta.

Lemma build_report_spec stock_code key st :
  match build_report env ak stock_code key st with
  | (Ok r, st') =>
      exists info st5,
        frame hist st st5 /\ called st st5 /\
        (memo_ok hist (_get_stock_info_cache st) -> resolved hist stock_code info) /\
        info_get info "股票简称" (VStr EmptyString) = VStr (name r) /\
        name r <> EmptyString /\
        code r = stock_code /\
        validate_stock_code stock_code = Ok stock_code /\
        update_time r = clock env (ticks st5) /\
        st' = stored key r st5
  | (Raise e, st') =>
      (e = StockDataError \/ e = StockNotFoundError \/ e = ValidationError) /\
      frame hist st st'
  end.
Proof.
  unfold build_report.
  pose proof (keeps_get_stock_info env ak hist ak_in_hist stock_code st) as K1.
  destruct (_get_stock_info env ak stock_code st) as [[info | e] st1] eqn:E1;
    simpl snd in K1.
  2:{ rewrite (bind_Raise _ _ _ _ _ E1).
      apply _get_stock_info_raises in E1. subst e. auto. }
  rewrite (bind_Ok _ _ _ _ _ E1).
  destruct (truthy (info_get info "股票简称" (VStr EmptyString))) eqn:Etruthy;
    cbn [negb]; [| unfold raise; auto].
  run_fetch (keeps_get_fundamental_data env ak hist ak_in_hist stock_code)
            (called_get_fundamental_data stock_code).
  run_fetch (keeps_get_valuation_data env ak hist ak_in_hist stock_code)
            (I).
  run_fetch (keeps_get_technical_data env ak hist stock_code)
            (I).
  run_fetch (keeps_get_sentiment_data env ak hist stock_code)
            (I).
  match goal with
  | H1 : frame hist st1 ?s2, H2 : frame hist ?s2 ?s3, H3 : frame hist ?s3 ?s4,
    H4 : frame hist ?s4 ?s5, C : called st1 ?s2 |- _ =>
      assert (F5 : frame hist st s5)
        by (eapply frame_trans; [exact K1 |]; eapply frame_trans; [exact H1 |];
            eapply frame_trans; [exact H2 |]; eapply frame_trans; eassumption);
      assert (C5 : called st s5)
        by (eapply frame_called; [exact K1 |]; eapply called_frame; [exact C |];
            eapply frame_trans; [exact H2 |]; eapply frame_trans; eassumption);
      clear H1 H2 H3 H4 C; rename s5 into st5
  end.
  unfold bind at 1. unfold now at 1.
  unfold bind at 1. unfold lift at 1.
  destruct (StockReport_init _ _ _ _ _ _ _) as [rep | e] eqn:Einit.
  2:{ unfold StockReport_init in Einit.
      assert (e = ValidationError)
        by (destruct (validate_stock_code stock_code);
            destruct (info_get info _ _); congruence).
      subst e. split; [auto |].
      eapply frame_trans; [exact F5 |].
      unfold frame; simpl. repeat split; auto. now exists []. }
  unfold StockReport_init in Einit.
  destruct (validate_stock_code stock_code) as [c |] eqn:Ev; [| discriminate].
  assert (c = stock_code).
  { unfold validate_stock_code in Ev.
    destruct (_ || _); [discriminate | congruence]. }
  subst c.
  destruct (info_get info "股票简称" (VStr EmptyString)) as [| n | |] eqn:En;
    try discriminate.
  injection Einit as <-.
  unfold bind at 1. unfold get_state at 1. cbn [_cache with_ticks].
  assert (Hn : n <> EmptyString) by (intros ->; discriminate).
  assert (Hr : memo_ok hist (_get_stock_info_cache st) -> resolved hist stock_code info)
    by (intros Hm; eapply _get_stock_info_resolved; eauto).
  destruct (dict_len (_cache st5) <? MAX_CACHE_SIZE (settings env)) eqn:Eguard;
    unfold bind, get_state, now, set_cache, ret; cbn [fst snd];
    exists info, st5; cbn [name code update_time];
    (split; [exact F5 |]); (split; [exact C5 |]); (split; [exact Hr |]);
    (split; [exact En |]); (split; [exact Hn |]);
    repeat (split; [reflexivity |]);
    unfold stored; rewrite Eguard; reflexivity.
Qed.
End BuildReport.

(* ================================================================= *)
(** ** [get_full_stock_report]: the two ways through it *)

Section FullReport.
Variable env : Env.
Variable ak : Provider.

(** A hit: the entry is there and passes the test of expiry. *)
Lemma get_full_stock_report_hit stock_code st r t :
  dict_get String.eqb (_cache st) (_get_cache_key stock_code) = Some (r, t) ->
  expired_at env (ticks st) t = false ->
  get_full_stock_report env ak stock_code st = (Ok r, with_ticks (S (ticks st)) st).
Proof.
  intros Hget Hfresh. unfold get_full_stock_report.
  unfold bind at 1. rewrite (cache_lookup_present _ _ _ _ _ Hget), Hfresh.
  reflexivity.
Qed.

(** What the handlers of [get_full_stock_report] make of the outcome of
    the [try] body *)
Definition reraise (out : result StockReport * State) : result StockReport * State :=
  match out with
  | (Ok r, st') => (Ok r, st')
  | (Raise StockNotFoundError, st') => (Raise StockNotFoundError, st')
  | (Raise _, st') => (Raise StockDataError, st')
  end.

(** A miss: no usable entry; the sweep, then the body. *)
Lemma get_full_stock_report_miss stock_code st st0 :
  cache_lookup env (_get_cache_key stock_code) st = (Ok None, st0) ->
  get_full_stock_report env ak stock_code st
  = reraise (build_report env ak stock_code (_get_cache_key stock_code)
               (snd (_clear_expired_cache env st0))).
Proof.
  intros Hmiss. unfold get_full_stock_report.
  unfold bind at 1. rewrite Hmiss.
  unfold bind at 1.
  destruct (_clear_expired_cache_shrinks env st0) as (Hok & _).
  destruct (_clear_expired_cache env st0) as [u st1]. simpl in Hok. subst u.
  unfold try_except, reraise, raise. simpl snd.
  destruct (build_report env ak stock_code (_get_cache_key stock_code) st1)
    as [[r | e] st']; [reflexivity |].
  destruct e; reflexivity.
Qed.

(** Every call is a hit or a miss. *)
Lemma cache_lookup_cases key st :
  (exists r t,
      dict_get String.eqb (_cache st) key = Some (r, t) /\
      expired_at env (ticks st) t = false /\
      cache_lookup env key st = (Ok (Some r), with_ticks (S (ticks st)) st))
  \/
  (exists st0,
      cache_lookup env key st = (Ok None, st0) /\
      _cache st0 = _cache st /\
      _last_clear_cache st0 = _last_clear_cache st /\
      _get_stock_info_cache st0 = _get_stock_info_cache st /\
      calls st0 = calls st /\
      (ticks st <= ticks st0)%nat).
Proof.
  destruct (dict_get String.eqb (_cache st) key) as [[r t] |] eqn:E.
  - rewrite (cache_lookup_present _ _ _ _ _ E).
    destruct (expired_at env (ticks st) t) eqn:Ex.
    + right. eexists. split; [reflexivity |]. simpl. repeat split; auto.
    + left. exists r, t. auto.
  - right. exists st. rewrite (cache_lookup_absent _ _ _ E). repeat split; auto.
Qed.
End FullReport.

Section FullReportSpec.
Variable env : Env.
Variable ak : Provider.

(** From the state at the call to the state in which the body starts:
    the look-up has missed and the sweep has run (or was not due). *)
Definition after_sweep (st st1 : State) : Prop :=
  _get_stock_info_cache st1 = _get_stock_info_cache st /\
  calls st1 = calls st /\
  (ticks st <= ticks st1)%nat /\
  (List.length (_cache st1) <= List.length (_cache st))%nat /\
  (forall P, Forall P (_cache st) -> Forall P (_cache st1)).

Lemma get_full_stock_report_cases stock_code st :
  (exists r t,
      dict_get String.eqb (_cache st) (_get_cache_key stock_code) = Some (r, t) /\
      expired_at env (ticks st) t = false /\
      get_full_stock_report env ak stock_code st
      = (Ok r, with_ticks (S (ticks st)) st))
  \/
  (exists st1,
      after_sweep st st1 /\
      get_full_stock_report env ak stock_code st
      = reraise (build_report env ak stock_code (_get_cache_key stock_code) st1)).
Proof.
  destruct (cache_lookup_cases env (_get_cache_key stock_code) st)
    as [(r & t & Hget & Hfresh & _) | (st0 & Hmiss & Hc & Hl & Hm & Hp & Ht)].
  - left. exists r, t. repeat split; auto.
    eapply get_full_stock_report_hit; eauto.
  - right. exists (snd (_clear_expired_cache env st0)).
    split; [| now apply get_full_stock_report_miss].
    destruct (_clear_expired_cache_shrinks env st0) as (_ & Hm' & Hp' & Ht' & Hlen & HP).
    unfold after_sweep. rewrite <- Hc, <- Hm, <- Hp.
    repeat split; auto. lia.
Qed.
End FullReportSpec.

(* ================================================================= *)
(** ** Invariants of the service *)






Section Invariant.
Variable env : Env.
Variable hist : list Provider.


End Invariant.


Section Size.
Variable env : Env.

Definition max_size : Z := MAX_CACHE_SIZE (settings env).

Lemma get_full_stock_report_size ak stock_code st :
  let st' := snd (get_full_stock_report env ak stock_code st) in
  dict_len (_cache st') <= dict_len (_cache st) + 1 /\
  (dict_len (_cache st) < dict_len (_cache st') -> dict_len (_cache st) < max_size) /\
  (dict_len (_cache st) <= Z.max 0 max_size ->
   dict_len (_cache st') <= Z.max 0 max_size).
Proof.
  unfold dict_len, max_size.
  destruct (get_full_stock_report_cases env ak stock_code st)
    as [(r & t & _ & _ & ->) | (st1 & (_ & _ & _ & Hlen & _) & ->)]; simpl.
  - lia.
  - pose proof (build_report_spec env ak [ak] (or_introl eq_refl) stock_code
                  (_get_cache_key stock_code) st1) as Hspec.
    destruct (build_report env ak stock_code (_get_cache_key stock_code) st1)
      as [[r | e] st'].
    + destruct Hspec as (info & st5 & (Hc5 & _) & _ & _ & _ & _ & _ & _ & _ & ->).
      simpl. unfold stored, dict_len.
      destruct (Z.of_nat (List.length (_cache st5)) <? MAX_CACHE_SIZE (settings env))
        eqn:Eguard; cbn [_cache with_cache with_ticks].
      * apply Z.ltb_lt in Eguard. rewrite Hc5 in *.
        rewrite length_dict_set.
        destruct (dict_get String.eqb (_cache st1) (_get_cache_key stock_code)); lia.
      * rewrite Hc5. lia.
    + destruct Hspec as (_ & Hc' & _).
      assert (_cache (snd (reraise (@Raise StockReport e, st'))) = _cache st1)
        by (destruct e; simpl; exact Hc').
      destruct e; simpl in *; rewrite Hc'; lia.
Qed.
End Size.

(* ================================================================= *)
(** ** The claims *)

(** C8. The report cache never holds more than [MAX_CACHE_SIZE] entries:
    after every sequence of calls of [get_full_stock_report] on a fresh
    service the number of entries is at most [MAX_CACHE_SIZE] (at most
    zero when the setting is negative); one more call adds at most one
    entry, and adds one only when the number of entries was below
    [MAX_CACHE_SIZE] before the call.  No other operation of the service
    writes to the cache (see [_clear_expired_cache_shrinks] for the
    sweep). *)
Theorem cache_never_exceeds_max_size (env : Env) (reqs : list request) :
  let st := run_requests env reqs (StockService_init env) in
  dict_len (_cache st) <= Z.max 0 (MAX_CACHE_SIZE (settings env)) /\
  forall ak stock_code,
    let st' := snd (get_full_stock_report env ak stock_code st) in
    dict_len (_cache st') <= dict_len (_cache st) + 1 /\
    (dict_len (_cache st) < dict_len (_cache st') ->
     dict_len (_cache st) < MAX_CACHE_SIZE (settings env)).
Proof.
  intros st. split.
  - assert (H : forall st0,
               dict_len (_cache st0) <= Z.max 0 (MAX_CACHE_SIZE (settings env)) ->
               dict_len (_cache (run_requests env reqs st0))
               <= Z.max 0 (MAX_CACHE_SIZE (settings env))).
    { induction reqs as [| [ak c] reqs' IH]; intros st0 Hst0; simpl; [exact Hst0 |].
      apply IH. now apply (get_full_stock_report_size env ak c st0). }
    apply H. unfold dict_len. simpl. lia.
  - intros ak stock_code st'.
    destruct (get_full_stock_report_size env ak stock_code st) as (H1 & H2 & _).
    split; assumption.
Qed.



(** A code of exactly six decimal digits *)
Definition six_digits (c : string) : Prop :=
  String.length c = 6%nat /\ forall_chars is_digit c = true.

Lemma query_pattern_six_digits (c : string) :
  query_pattern c = true <-> six_digits c.
Proof.
  unfold query_pattern, six_digits, str_len. rewrite andb_true_iff, Z.eqb_eq.
  split; intros [H1 H2]; split; auto; lia.
Qed.

(** Behind the pattern of the query parameter the test in the handler
    itself never fires. *)
Lemma handler_check_passes (c : string) :
  query_pattern c = true ->
  (c =? EmptyString)%string || negb (str_len c =? 6) || negb (isdigit c) = false.
Proof.
  unfold query_pattern, isdigit. rewrite andb_true_iff. intros [Hlen Hdig].
  rewrite Hlen, Hdig.
  destruct c; [discriminate Hlen | reflexivity].
Qed.

(** The endpoint, for a code that matches the pattern: the outcome of the
    service decides the status. *)
Lemma get_stock_full_report_valid env ak (c : string) st :
  query_pattern c = true ->
  get_stock_full_report env ak (Some c) st
  = match get_full_stock_report env ak c st with
    | (Ok r, st') => (Ok (Response200 r), st')
    | (Raise StockNotFoundError, st') => (Ok (ResponseError 404), st')
    | (Raise StockDataError, st') => (Ok (ResponseError 500), st')
    | (Raise ValidationError, st') => (Ok (ResponseError 400), st')
    | (Raise _, st') => (Ok (ResponseError 500), st')
    end.
Proof.
  intros Hq. unfold get_stock_full_report. rewrite Hq. cbn [negb].
  rewrite (handler_check_passes _ Hq).
  unfold try_except, bind, ret.
  destruct (get_full_stock_report env ak c st) as [[r | e] st']; [reflexivity |].
  destruct e; reflexivity.
Qed.



(** C1 (the code departs from the claim). For a six-digit ticker that is
    neither in the report cache nor in the table of [_get_stock_info] and
    for which the provider answers the basic information with an empty
    frame, the endpoint responds with status 500: the
    [StockNotFoundError] raised in [_get_stock_info] is caught by the
    [except Exception] of the same function and raised again as a
    [StockDataError]. *)
Theorem unknown_ticker_gets_500 (env : Env) (ak : Provider) (c : string)
    (st : State) (df : DataFrame) :
  six_digits c ->
  dict_get String.eqb (_cache st) (_get_cache_key c) = None ->
  dict_get String.eqb (_get_stock_info_cache st) c = None ->
  stock_individual_info_em ak c = Ok df ->
  df_empty df = true ->
  fst (get_stock_full_report env ak (Some c) st) = Ok (ResponseError 500).
Proof.
  intros Hc Hcache Hmemo Hdf Hempty.
  apply query_pattern_six_digits in Hc.
  rewrite (get_stock_full_report_valid _ _ _ _ Hc).
  rewrite (get_full_stock_report_miss env ak c st st (cache_lookup_absent _ _ _ Hcache)).
  destruct (_clear_expired_cache_shrinks env st) as (_ & Hm & _).
  unfold build_report.
  erewrite bind_Raise.
  2:{ rewrite _get_stock_info_miss by (rewrite Hm; exact Hmemo).
      rewrite Hdf, Hempty. reflexivity. }
  reflexivity.
Qed.

Lemma unknown_ticker_gets_500_witness :
  fst (get_stock_full_report Fixture.env0 Fixture.ak_unknown (Some "999999")
         Fixture.fresh)
  = Ok (ResponseError 500).
Proof.
  apply (unknown_ticker_gets_500 Fixture.env0 Fixture.ak_unknown "999999"
           Fixture.fresh Fixture.no_frame);
    try reflexivity.
  split; reflexivity.
Defined.

(** The name that [get_full_stock_report] reads from the basic
    information *)
Definition stock_name_of (info : info_dict) : pyval :=
  info_get info "股票简称" (VStr EmptyString).




(** The same case, run: a provider whose basic information carries an
    empty name gives a not-found error, and the endpoint answers 404. *)
Example name_missing_is_not_found :
  fst (get_full_stock_report Fixture.env0 (Fixture.ak_named EmptyString) "600519"
         Fixture.fresh)
  = Raise StockNotFoundError /\
  fst (get_stock_full_report Fixture.env0 (Fixture.ak_named EmptyString) (Some "600519")
         Fixture.fresh)
  = Ok (ResponseError 404).
Proof. vm_compute. split; reflexivity. Qed.

(** C9 (the code departs from the claim). [_safe_get_int] is not total:
    whenever [float] reads the text [inf] as infinity, the helper lets the
    [OverflowError] of [int(float('inf'))] through, since it catches
    [ValueError] and [TypeError] only. *)
Theorem _safe_get_int_raises_on_infinity (rt : Runtime) (default : option Z) :
  float_of_str rt "inf" = Some (S754_infinity false) ->
  _safe_get_int rt (VStr "inf") default = Raise OverflowError.
Proof.
  intros H. unfold _safe_get_int, R.try_except, R.bind, py_float.
  cbn [is_blank py_str remove_char Ascii.eqb Bool.eqb].
  change (strip "inf" =? "-")%string with false. cbn iota.
  rewrite H. reflexivity.
Qed.

Lemma _safe_get_int_raises_on_infinity_witness :
  _safe_get_int Fixture.rt (VStr "inf") None = Raise OverflowError.
Proof.
  apply (_safe_get_int_raises_on_infinity Fixture.rt None). reflexivity.
Defined.

(** The rest of the claim holds.  [_safe_get_float] returns for every
    value; both helpers return the default for [None], for the empty
    string and for a dash between blanks; otherwise they return the
    number that [float] reads from the text of the value without commas
    (and, for floats, without percent signs), and the default when
    [float] does not accept that text ([_safe_get_float_returns],
    [_safe_get_float_blank], [_safe_get_float_parsed], [is_blank_None],
    [is_blank_empty], [is_blank_dash], [_safe_get_int_blank]).  For
    integers: *)
Lemma _safe_get_int_parsed (rt : Runtime) (value : pyval) (default : option Z) :
  is_blank rt value = false ->
  _safe_get_int rt value default
  = match float_of_str rt (remove_char "," (py_str rt value)) with
    | None => Ok default
    | Some x =>
        match int_of_float x with
        | Ok n => Ok (Some n)
        | Raise ValueError => Ok default
        | Raise e => Raise e
        end
    end.
Proof.
  intros H. unfold _safe_get_int, R.try_except, R.bind, py_float. rewrite H.
  destruct (float_of_str rt _) as [x |]; [| reflexivity].
  destruct x as [s | s | | s m e]; reflexivity.
Qed.

(** [_safe_get_int] returns unless the number read is an infinity. *)
Lemma _safe_get_int_returns (rt : Runtime) (value : pyval) (default : option Z) :
  (forall s, float_of_str rt (remove_char "," (py_str rt value))
             <> Some (S754_infinity s)) ->
  exists r, _safe_get_int rt value default = Ok r.
Proof.
  intros H. destruct (is_blank rt value) eqn:E.
  - rewrite _safe_get_int_blank by exact E. eauto.
  - rewrite _safe_get_int_parsed by exact E.
    destruct (float_of_str rt _) as [x |]; [| eauto].
    destruct x as [s | s | | s m e]; simpl; eauto.
    now destruct (H s).
Qed.

(** C7 (the code departs from the claim). The tests of expiry look at
    [timedelta.seconds], the seconds within the day, not at the whole age.
    The cache holds the report of 600519, stored at second 400, and the
    report of 000001, stored at second 100; the service was last swept at
    second 0; the clock now reads second 86810, one day and 410 seconds
    later.  The sweep is due and runs: it deletes the entry of 000001 and
    keeps the entry of 600519, whose age is one day and 10 seconds.  And
    a request for 600519 in that state is answered from the cache, with
    no call to the provider, although the entry is older than 300
    seconds. *)
Theorem day_old_entry_is_kept_and_served :
  let env := Fixture.env_of (seconds 86810) 0 in
  let old := (_get_cache_key "600519",
              (Fixture.report_of "600519" "A" (seconds 400), seconds 400)) in
  let other := (_get_cache_key "000001",
                (Fixture.report_of "000001" "B" (seconds 100), seconds 100)) in
  let st := Fixture.state_of [old; other] 0 in
  seconds (CACHE_TTL (settings env)) < clock env 0 - seconds 400 /\
  sweep_due env st = true /\
  _cache (snd (_clear_expired_cache env st)) = [old] /\
  _last_clear_cache (snd (_clear_expired_cache env st)) = seconds 86810 /\
  get_full_stock_report env Fixture.ak_down "600519" st
  = (Ok (Fixture.report_of "600519" "A" (seconds 400)), with_ticks 1 st).
Proof.
  vm_compute. repeat split; reflexivity.
Qed.

(* ================================================================= *)
(** ** The four sections as functions of the provider's answers *)

Section Sections.
Variable env : Env.

Definition fundamental_section (info : info_dict) (financial : result DataFrame)
  : FundamentalAnalysis :=
  match financial with
  | Ok financial_analysis =>
      match fundamental_data env info financial_analysis with
      | Ok d => FundamentalAnalysis_init d
      | Raise _ => FundamentalAnalysis_init []
      end
  | Raise _ => FundamentalAnalysis_init []
  end.

Definition valuation_section (info : info_dict) : ValuationAnalysis :=
  match valuation_data env info with
  | Ok d => ValuationAnalysis_init d
  | Raise _ => ValuationAnalysis_init []
  end.

Definition technical_section (stock_code : string) (spot hist : result DataFrame)
  : TechnicalAnalysis :=
  match spot with
  | Ok current_data =>
      match df_where_eq current_data "代码" stock_code, hist with
      | Ok stock_current, Ok hist_data =>
          match technical_data env stock_current hist_data with
          | Ok d => TechnicalAnalysis_init d
          | Raise _ => TechnicalAnalysis_init []
          end
      | _, _ => TechnicalAnalysis_init []
      end
  | Raise _ => TechnicalAnalysis_init []
  end.

(** What the two inner [try] blocks of [_get_sentiment_data] leave in
    [sentiment_data] *)
Definition fund_flow_fields (flow : result DataFrame) : kwargs :=
  match flow with
  | Ok flow_data => or_default [] (fund_flow_data env flow_data)
  | Raise _ => []
  end.

Definition concept_labels_of (stock_code : string) (concept : result DataFrame)
  : list pyval :=
  match concept with
  | Ok concept_data => or_default [] (concepts_of stock_code concept_data)
  | Raise _ => []
  end.

Definition sentiment_section (stock_code : string) (flow concept : result DataFrame)
  : SentimentAnalysis :=
  or_default SentimentAnalysis_default
    (SentimentAnalysis_init (fund_flow_fields flow)
       (Some (concept_labels_of stock_code concept))).

Variable ak : Provider.

Lemma _get_fundamental_data_eq c st info st1 :
  _get_stock_info env ak c st = (Ok info, st1) ->
  _get_fundamental_data env ak c st
  = (Ok (fundamental_section info (stock_financial_analysis_indicator ak c)),
     with_calls (CallFinancialIndicator c :: calls st1) st1).
Proof.
  intros H. unfold _get_fundamental_data, try_except.
  rewrite (bind_Ok _ _ _ _ _ H).
  unfold bind, call, lift, ret, fundamental_section.
  destruct (stock_financial_analysis_indicator ak c) as [fa | e]; [| reflexivity].
  destruct (fundamental_data env info fa); reflexivity.
Qed.

Lemma _get_fundamental_data_default c st e st1 :
  _get_stock_info env ak c st = (Raise e, st1) ->
  _get_fundamental_data env ak c st = (Ok (FundamentalAnalysis_init []), st1).
Proof.
  intros H. unfold _get_fundamental_data, try_except.
  now rewrite (bind_Raise _ _ _ _ _ H).
Qed.

Lemma _get_valuation_data_eq c st info st1 :
  _get_stock_info env ak c st = (Ok info, st1) ->
  _get_valuation_data env ak c st = (Ok (valuation_section info), st1).
Proof.
  intros H. unfold _get_valuation_data, try_except.
  rewrite (bind_Ok _ _ _ _ _ H).
  unfold bind, lift, ret, valuation_section.
  destruct (valuation_data env info); reflexivity.
Qed.

Lemma _get_valuation_data_default c st e st1 :
  _get_stock_info env ak c st = (Raise e, st1) ->
  _get_valuation_data env ak c st = (Ok (ValuationAnalysis_init []), st1).
Proof.
  intros H. unfold _get_valuation_data, try_except.
  now rewrite (bind_Raise _ _ _ _ _ H).
Qed.

Lemma _get_technical_data_eq c st :
  fst (_get_technical_data env ak c st)
  = Ok (technical_section c (stock_zh_a_spot_em ak) (stock_zh_a_hist ak c)).
Proof.
  unfold _get_technical_data, try_except, bind, call, lift, ret, technical_section.
  destruct (stock_zh_a_spot_em ak) as [cd | e]; [| reflexivity].
  destruct (df_where_eq cd "代码" c) as [sc | e]; [| reflexivity].
  destruct (stock_zh_a_hist ak c) as [hd | e]; [| reflexivity].
  destruct (technical_data env sc hd); reflexivity.
Qed.

Lemma _get_sentiment_data_eq c st :
  fst (_get_sentiment_data env ak c st)
  = Ok (sentiment_section c
          (stock_individual_fund_flow ak c (market_of c))
          (stock_board_concept_cons_em ak "东方财富")).
Proof.
  unfold _get_sentiment_data, try_except, bind, call, lift, ret, sentiment_section,
    fund_flow_fields, concept_labels_of, or_default.
  destruct (stock_individual_fund_flow ak c (market_of c)) as [fd | e];
    [destruct (fund_flow_data env fd) |];
    (destruct (stock_board_concept_cons_em ak "东方财富") as [cd | e'];
     [destruct (concepts_of c cd) |]);
    cbv beta iota;
    match goal with
    | |- context [SentimentAnalysis_init ?d ?l] =>
        destruct (SentimentAnalysis_init d l)
    end; reflexivity.
Qed.
End Sections.

Lemma validate_stock_code_six (c : string) :
  six_digits c -> validate_stock_code c = Ok c.
Proof.
  intros Hc. apply query_pattern_six_digits in Hc.
  unfold validate_stock_code. now rewrite (handler_check_passes _ Hc).
Qed.

Lemma truthy_name (n : string) : n <> EmptyString -> truthy (VStr n) = true.
Proof. intros H. destruct n; [congruence | reflexivity]. Qed.

Section PartialFailure.
Variable env : Env.
Variable ak : Provider.

(** After [_get_stock_info] has returned [info], it returns [info] again:
    from its table, or, when the table has no room at all, from the same
    answer of the provider. *)
Lemma _get_stock_info_again c st info st1 st1' :
  _get_stock_info env ak c st = (Ok info, st1) ->
  _get_stock_info_cache st1' = _get_stock_info_cache st1 ->
  exists st2, _get_stock_info env ak c st1' = (Ok info, st2).
Proof.
  intros H Hmemo.
  destruct (dict_get String.eqb (_get_stock_info_cache st) c) as [info0 |] eqn:E.
  - rewrite (_get_stock_info_hit _ _ _ _ _ E) in H. injection H as <- <-.
    simpl in Hmemo. eexists. apply _get_stock_info_hit.
    rewrite Hmemo. simpl. now rewrite String.eqb_refl.
  - pose proof (_get_stock_info_miss env ak c st E) as Hmiss. rewrite H in Hmiss.
    destruct (stock_individual_info_em ak c) as [df | e] eqn:Edf; [| discriminate].
    destruct (df_empty df) eqn:Eempty; [discriminate |].
    destruct (info_dict_of_rows df (data df) []) as [info1 | e] eqn:Einfo; [| discriminate].
    injection Hmiss as -> ->. simpl in Hmemo.
    destruct (Z.to_nat (MAX_CACHE_SIZE (settings env))) as [| k]; simpl in Hmemo.
    + eexists. rewrite _get_stock_info_miss by (rewrite Hmemo; reflexivity).
      rewrite Edf, Eempty, Einfo. reflexivity.
    + eexists. apply _get_stock_info_hit.
      rewrite Hmemo. simpl. now rewrite String.eqb_refl.
Qed.

(** Once the name is resolved, the body builds the report, section by
    section, from the answers of the provider. *)
Lemma build_report_sections c key st info st1 n :
  six_digits c ->
  _get_stock_info env ak c st = (Ok info, st1) ->
  stock_name_of info = VStr n ->
  n <> EmptyString ->
  exists t st',
    build_report env ak c key st
    = (Ok {| code := c; name := n; update_time := t;
             fundamental_analysis :=
               fundamental_section env info (stock_financial_analysis_indicator ak c);
             valuation_analysis := valuation_section env info;
             technical_analysis :=
               technical_section env c (stock_zh_a_spot_em ak) (stock_zh_a_hist ak c);
             sentiment_analysis :=
               sentiment_section env c
                 (stock_individual_fund_flow ak c (market_of c))
                 (stock_board_concept_cons_em ak "东方财富") |},
       st').
Proof.
  intros Hc H Hname Hn. unfold build_report.
  rewrite (bind_Ok _ _ _ _ _ H).
  unfold stock_name_of in Hname. rewrite Hname, (truthy_name _ Hn). cbn [negb].
  destruct (_get_stock_info_again c st info st1 st1 H eq_refl) as [st1a H1].
  unfold bind at 1. unfold return_exceptions at 1.
  rewrite (_get_fundamental_data_eq env ak c st1 info st1a H1).
  set (st2 := with_calls _ st1a).
  destruct (_get_stock_info_again c st1 info st1a st2 H1 eq_refl) as [st2a H2].
  unfold bind at 1. unfold return_exceptions at 1.
  rewrite (_get_valuation_data_eq env ak c st2 info st2a H2).
  unfold bind at 1. unfold return_exceptions at 1.
  pose proof (_get_technical_data_eq env ak c st2a) as Ht.
  destruct (_get_technical_data env ak c st2a) as [rt st3]. simpl in Ht. subst rt.
  unfold bind at 1. unfold return_exceptions at 1.
  pose proof (_get_sentiment_data_eq env ak c st3) as Hs.
  destruct (_get_sentiment_data env ak c st3) as [rs st4]. simpl in Hs. subst rs.
  unfold bind at 1. unfold now at 1.
  unfold bind at 1. unfold lift at 1.
  unfold StockReport_init. rewrite (validate_stock_code_six _ Hc).
  cbn [or_default].
  unfold bind at 1. unfold get_state at 1.
  destruct (dict_len _ <? _); unfold bind, now, get_state, set_cache, ret;
    eexists; eexists; reflexivity.
Qed.
End PartialFailure.

(** What a failing call leaves in its section *)
Lemma fundamental_section_failed env info e :
  fundamental_section env info (Raise e) = FundamentalAnalysis_init [].
Proof. reflexivity. Qed.



Lemma sentiment_section_concept_failed env c flow e :
  concept_labels (sentiment_section env c flow (Raise e)) = Some [].
Proof. reflexivity. Qed.











(* ================================================================= *)
(** ** What does hold of the sweep

    The parts of C7 that the code keeps: the sweep runs only when it is
    due, a sweep that is due with a clock that has not gone back comes
    more than [CACHE_TTL] seconds after the previous one, it leaves alone
    every entry that passes the test of expiry, and it deletes the
    entries that fail it. *)

Section Sweep.
Variable env : Env.

Lemma sweep_not_due st :
  sweep_due env st = false ->
  _clear_expired_cache env st = (Ok tt, with_ticks (S (ticks st)) st).
Proof. intros H. rewrite _clear_expired_cache_eq. now rewrite H. Qed.

(** X8. When the sweep is due and the clock has not gone back since the
    last sweep, more than [CACHE_TTL] seconds have passed since then. *)
Lemma sweep_due_after_ttl st :
  sweep_due env st = true ->
  0 <= clock env (ticks st) - _last_clear_cache st ->
  seconds (CACHE_TTL (settings env)) < clock env (ticks st) - _last_clear_cache st.
Proof.
  unfold sweep_due, ttl, timedelta_seconds, seconds.
  set (d := clock env (ticks st) - _last_clear_cache st).
  intros Hdue Hd. apply Z.gtb_lt in Hdue.
  pose proof (Z.mod_le d 86400000000 Hd ltac:(lia)) as Hle.
  pose proof (Z.mod_pos_bound d 86400000000 ltac:(lia)) as Hm.
  destruct (Z_lt_le_dec (CACHE_TTL (settings env) * 1000000) d) as [H | H]; [exact H |].
  exfalso.
  assert ((d mod 86400000000) / 1000000 <= CACHE_TTL (settings env)).
  { apply Z.lt_succ_r. apply Z.div_lt_upper_bound; lia. }
  lia.
Qed.

(** The keys that the sweep collects belong to entries that fail the test
    at the reading at which the sweep tests them. *)
Lemma expired_keys_at_In k n items :
  In k (expired_keys_at env n items) ->
  exists i r t,
    nth_error items i = Some (k, (r, t)) /\ expired_at env (n + i) t = true.
Proof.
  revert n. induction items as [| [key [r t]] rest IH]; intros n; simpl; [tauto |].
  destruct (expired_at env n t) eqn:E.
  - intros [<- | H].
    + exists 0%nat, r, t. rewrite Nat.add_0_r. auto.
    + destruct (IH _ H) as (i & r' & t' & Hi & He).
      exists (S i), r', t'. rewrite Nat.add_succ_r. auto.
  - intros H. destruct (IH _ H) as (i & r' & t' & Hi & He).
    exists (S i), r', t'. rewrite Nat.add_succ_r. auto.
Qed.

Lemma expired_keys_at_complete i k r t n items :
  nth_error items i = Some (k, (r, t)) ->
  expired_at env (n + i) t = true ->
  In k (expired_keys_at env n items).
Proof.
  revert i n. induction items as [| [key [r' t']] rest IH]; intros [| i] n; simpl;
    try discriminate.
  - intros [= -> -> ->]. rewrite Nat.add_0_r. intros ->. now left.
  - intros Hi He. rewrite Nat.add_succ_r in He.
    destruct (expired_at env n t'); [right |]; eapply (IH i (S n)); eauto.
Qed.

(** X6. An entry survives a sweep that runs, with its report and time
    unchanged, when no entry under its key fails the test of expiry at
    the reading at which the sweep tests it. *)
Lemma sweep_keeps st key :
  sweep_due env st = true ->
  (forall i r t, nth_error (_cache st) i = Some (key, (r, t)) ->
                 expired_at env (S (ticks st) + i) t = false) ->
  dict_get String.eqb (_cache (snd (_clear_expired_cache env st))) key
  = dict_get String.eqb (_cache st) key.
Proof.
  intros Hdue Hfresh. rewrite _clear_expired_cache_eq, Hdue. simpl.
  unfold swept_cache. apply dict_get_fold_del_other.
  intros Hin. apply expired_keys_at_In in Hin.
  destruct Hin as (i & r & t & Hi & He).
  rewrite (Hfresh _ _ _ Hi) in He. discriminate.
Qed.

Lemma dict_get_del_same {V} (d : list (string * V)) (k : string) :
  NoDup (map fst d) -> dict_get String.eqb (dict_del String.eqb d k) k = None.
Proof.
  induction d as [| [k' v] d IH]; simpl; intros Hnd; [reflexivity |].
  inversion Hnd as [| ? ? Hni Hnd']; subst.
  destruct (String.eqb k' k) eqn:E; simpl.
  - apply String.eqb_eq in E. subst k'.
    destruct (dict_get String.eqb d k) as [v' |] eqn:G; [| reflexivity].
    exfalso. apply Hni. apply dict_get_In in G.
    change k with (fst (k, v')). now apply in_map.
  - rewrite E. now apply IH.
Qed.

Lemma dict_get_del_None {V} (d : list (string * V)) (k k' : string) :
  dict_get String.eqb d k' = None ->
  dict_get String.eqb (dict_del String.eqb d k) k' = None.
Proof.
  induction d as [| [k0 v] d IH]; simpl; [reflexivity |].
  destruct (String.eqb k0 k') eqn:E'; [discriminate |].
  intros H. destruct (String.eqb k0 k); simpl; [exact H |].
  rewrite E'. now apply IH.
Qed.

Lemma NoDup_dict_del {V} (d : list (string * V)) (k : string) :
  NoDup (map fst d) -> NoDup (map fst (dict_del String.eqb d k)).
Proof.
  induction d as [| [k' v] d IH]; simpl; intros Hnd; [constructor |].
  inversion Hnd as [| ? ? Hni Hnd']; subst.
  destruct (String.eqb k' k); [exact Hnd' |].
  simpl. constructor; [| now apply IH].
  intros Hin. apply Hni. clear - Hin.
  induction d as [| [k0 v0] d IH]; simpl in *; [tauto |].
  destruct (String.eqb k0 k); simpl in *; [now right | tauto].
Qed.

Lemma dict_get_fold_del_same {V} keys (d : list (string * V)) (k : string) :
  NoDup (map fst d) -> In k keys ->
  dict_get String.eqb (fold_left (dict_del String.eqb) keys d) k = None.
Proof.
  revert d. induction keys as [| k0 keys IH]; intros d Hnd; simpl; [tauto |].
  intros [-> | Hin].
  - assert (H : forall ks (d' : list (string * V)),
               dict_get String.eqb d' k = None ->
               dict_get String.eqb (fold_left (dict_del String.eqb) ks d') k = None).
    { induction ks as [| k1 ks IHks]; intros d' Hd'; simpl; [exact Hd' |].
      apply IHks. now apply dict_get_del_None. }
    apply H. now apply dict_get_del_same.
  - apply IH; [now apply NoDup_dict_del | exact Hin].
Qed.

(** X7. An entry that fails the test of expiry when a running sweep
    reaches it is deleted (the keys of a dictionary being distinct). *)
Lemma sweep_deletes st key i r t :
  sweep_due env st = true ->
  NoDup (map fst (_cache st)) ->
  nth_error (_cache st) i = Some (key, (r, t)) ->
  expired_at env (S (ticks st) + i) t = true ->
  dict_get String.eqb (_cache (snd (_clear_expired_cache env st))) key = None.
Proof.
  intros Hdue Hnd Hi He. rewrite _clear_expired_cache_eq, Hdue. simpl.
  unfold swept_cache. apply dict_get_fold_del_same; [exact Hnd |].
  eapply expired_keys_at_complete; eauto.
Qed.

(** An entry that fails the test when it is looked up is not returned:
    the call goes on to the sweep and the body. *)
Lemma expired_entry_not_returned ak c st r t :
  dict_get String.eqb (_cache st) (_get_cache_key c) = Some (r, t) ->
  expired_at env (ticks st) t = true ->
  get_full_stock_report env ak c st
  = reraise (build_report env ak c (_get_cache_key c)
               (snd (_clear_expired_cache env (with_ticks (S (ticks st)) st)))).
Proof.
  intros Hget He. apply get_full_stock_report_miss.
  rewrite (cache_lookup_present _ _ _ _ _ Hget). now rewrite He.
Qed.
End Sweep.

(* ================================================================= *)
(** * Further properties of the code *)

(* ================================================================= *)
(** ** The coercion helpers, continued *)

(** X1. [_safe_get_float] never raises: it returns the default, or the
    float that [float] reads from the text of a value that is not blank,
    commas and percent signs removed. *)
Theorem _safe_get_float_never_raises (rt : Runtime) (value : pyval)
    (default : option spec_float) :
  exists r,
    _safe_get_float rt value default = Ok r /\
    (r = default \/
     exists x,
       r = Some x /\ is_blank rt value = false /\
       float_of_str rt (remove_char "%" (remove_char "," (py_str rt value))) = Some x).
Proof.
  destruct (is_blank rt value) eqn:E.
  - exists default. split; [now apply _safe_get_float_blank | now left].
  - rewrite (_safe_get_float_parsed rt value default E).
    destruct (float_of_str rt _) as [x |] eqn:F.
    + exists (Some x). split; [reflexivity |]. right. exists x. auto.
    + exists default. split; [reflexivity | now left].
Qed.

(** X2. When [_safe_get_int] raises, the exception is [OverflowError], the
    value is not blank and its text, commas removed, reads as an
    infinity. *)
Theorem _safe_get_int_raises_only_on_infinity (rt : Runtime) (value : pyval)
    (default : option Z) (e : exn) :
  _safe_get_int rt value default = Raise e ->
  e = OverflowError /\
  is_blank rt value = false /\
  exists s, float_of_str rt (remove_char "," (py_str rt value)) = Some (S754_infinity s).
Proof.
  destruct (is_blank rt value) eqn:E.
  - rewrite _safe_get_int_blank by exact E. discriminate.
  - rewrite _safe_get_int_parsed by exact E.
    destruct (float_of_str rt _) as [x |]; [| discriminate].
    destruct x as [s | s | | s m ex]; simpl; try discriminate.
    intros [= <-]. repeat split. now exists s.
Qed.

Lemma _safe_get_int_raises_only_on_infinity_witness :
  OverflowError = OverflowError /\
  is_blank Fixture.rt (VStr "in,f") = false /\
  exists s,
    float_of_str Fixture.rt (remove_char "," (py_str Fixture.rt (VStr "in,f")))
    = Some (S754_infinity s).
Proof.
  apply (_safe_get_int_raises_only_on_infinity Fixture.rt (VStr "in,f") (Some 7)
           OverflowError).
  vm_compute. reflexivity.
Defined.

(* ================================================================= *)
(** ** The test of expiry, continued *)

(** X3. For an age between zero and one day, [_is_cache_expired] answers
    true exactly from [CACHE_TTL] + 1 whole seconds on: an entry that is
    [CACHE_TTL] seconds and 999999 microseconds old is not expired. *)
Theorem _is_cache_expired_boundary (env : Env) (cache_time : datetime) (st : State) :
  0 <= clock env (ticks st) - cache_time < seconds 86400 ->
  fst (_is_cache_expired env cache_time st)
  = Ok (seconds (CACHE_TTL (settings env) + 1) <=? clock env (ticks st) - cache_time).
Proof.
  intros Hd. rewrite _is_cache_expired_eq. cbn [fst]. f_equal.
  unfold expired_at, ttl.
  set (d := clock env (ticks st) - cache_time) in *.
  destruct (seconds (CACHE_TTL (settings env) + 1) <=? d) eqn:E.
  - apply Z.leb_le in E. apply expired_of_age. lia.
  - apply Z.leb_gt in E.
    unfold timedelta_seconds, seconds in *. rewrite Z.mod_small by lia.
    assert (d / 1000000 < CACHE_TTL (settings env) + 1)
      by (apply Z.div_lt_upper_bound; lia).
    destruct (_ >? _) eqn:G; [apply Z.gtb_lt in G; lia | reflexivity].
Qed.

Lemma _is_cache_expired_boundary_witness :
  fst (_is_cache_expired (Fixture.env_of (seconds 300 + 999999) 1) 0
         (Fixture.state_of [] 0))
  = Ok false.
Proof.
  apply (_is_cache_expired_boundary (Fixture.env_of (seconds 300 + 999999) 1) 0
           (Fixture.state_of [] 0)).
  vm_compute. split; [discriminate | reflexivity].
Defined.

(** X4. The test looks at the time of day of the age only: moving the time
    of caching by whole days, either way, does not change the answer of
    [_is_cache_expired]. *)
Theorem _is_cache_expired_ignores_days (env : Env) (cache_time : datetime)
    (days : Z) (st : State) :
  _is_cache_expired env (cache_time - days * seconds 86400) st
  = _is_cache_expired env cache_time st.
Proof.
  rewrite !_is_cache_expired_eq. f_equal. f_equal.
  unfold expired_at, timedelta_seconds, seconds. f_equal. f_equal.
  replace (clock env (ticks st) - (cache_time - days * (86400 * 1000000)))
    with (clock env (ticks st) - cache_time + days * 86400000000) by lia.
  apply Z.mod_add. lia.
Qed.

(* ================================================================= *)
(** ** The sweep, continued *)

(** X5. [_clear_expired_cache] never raises and only removes: every entry
    it leaves was there before, with the same report and time; it leaves
    the table of [_get_stock_info] and the provider alone.  When it is
    not due it changes nothing but the clock reading it consumed; when it
    is due it sets [_last_clear_cache] to the reading it started with. *)
Theorem _clear_expired_cache_only_removes (env : Env) (st : State) :
  fst (_clear_expired_cache env st) = Ok tt /\
  _get_stock_info_cache (snd (_clear_expired_cache env st)) = _get_stock_info_cache st /\
  calls (snd (_clear_expired_cache env st)) = calls st /\
  (forall e, In e (_cache (snd (_clear_expired_cache env st))) -> In e (_cache st)) /\
  (sweep_due env st = false ->
   _clear_expired_cache env st = (Ok tt, with_ticks (S (ticks st)) st)) /\
  (sweep_due env st = true ->
   _last_clear_cache (snd (_clear_expired_cache env st)) = clock env (ticks st)).
Proof.
  destruct (_clear_expired_cache_shrinks env st) as (Hok & Hm & Hc & _ & _ & HP).
  repeat (split; [assumption |]).
  split; [| split].
  - intros e. specialize (HP (fun e => In e (_cache st))).
    rewrite !Forall_forall in HP. apply HP. auto.
  - intros H. rewrite _clear_expired_cache_eq. now rewrite H.
  - intros H. rewrite _clear_expired_cache_eq. now rewrite H.
Qed.

(** The three properties of the sweep at work: the cache holds the report
    of 600519, stored at second 300 (or at second 0), the last sweep was
    at second 0 and the clock reads second 400. *)
Lemma sweep_keeps_witness :
  dict_get String.eqb
    (_cache (snd (_clear_expired_cache (Fixture.env_of (seconds 400) 0)
                    (Fixture.state_of
                       [(_get_cache_key "600519",
                         (Fixture.report_of "600519" "A" (seconds 300), seconds 300))]
                       0))))
    (_get_cache_key "600519")
  = Some (Fixture.report_of "600519" "A" (seconds 300), seconds 300).
Proof.
  apply (sweep_keeps (Fixture.env_of (seconds 400) 0)
           (Fixture.state_of
              [(_get_cache_key "600519",
                (Fixture.report_of "600519" "A" (seconds 300), seconds 300))] 0)
           (_get_cache_key "600519")).
  - vm_compute. reflexivity.
  - intros [| [| i]] r t H; simpl in H; try discriminate H.
    injection H as _ <-. vm_compute. reflexivity.
Defined.

Lemma sweep_deletes_witness :
  dict_get String.eqb
    (_cache (snd (_clear_expired_cache (Fixture.env_of (seconds 400) 0)
                    (Fixture.one_entry_state 0))))
    (_get_cache_key "600519")
  = None.
Proof.
  apply (sweep_deletes (Fixture.env_of (seconds 400) 0) (Fixture.one_entry_state 0)
           (_get_cache_key "600519") 0 (Fixture.report_of "600519" "A" 0) 0).
  - vm_compute. reflexivity.
  - simpl. constructor; [intros [] | constructor].
  - reflexivity.
  - vm_compute. reflexivity.
Defined.

Lemma sweep_due_after_ttl_witness :
  seconds (CACHE_TTL (settings (Fixture.env_of (seconds 400) 0)))
  < clock (Fixture.env_of (seconds 400) 0) (ticks (Fixture.one_entry_state 0))
    - _last_clear_cache (Fixture.one_entry_state 0).
Proof.
  apply (sweep_due_after_ttl (Fixture.env_of (seconds 400) 0) (Fixture.one_entry_state 0)).
  - vm_compute. reflexivity.
  - vm_compute. discriminate.
Defined.

(* ================================================================= *)
(** ** The table of [_get_stock_info], continued *)

(** X9. With room for at least one entry in the table, a look-up that has
    returned is remembered: the next look-up of the same ticker returns
    the same dictionary and does not ask the provider, whatever the
    provider would answer by then. *)
Theorem _get_stock_info_remembers (env : Env) (ak ak' : Provider) (c : string)
    (st st1 : State) (info : info_dict) :
  1 <= MAX_CACHE_SIZE (settings env) ->
  _get_stock_info env ak c st = (Ok info, st1) ->
  exists st2,
    _get_stock_info env ak' c st1 = (Ok info, st2) /\
    calls st2 = calls st1 /\
    _cache st2 = _cache st1.
Proof.
  intros Hmax H.
  assert (Hget : dict_get String.eqb (_get_stock_info_cache st1) c = Some info).
  { destruct (dict_get String.eqb (_get_stock_info_cache st) c) as [info0 |] eqn:E.
    - rewrite (_get_stock_info_hit _ _ _ _ _ E) in H. injection H as <- <-.
      simpl. now rewrite String.eqb_refl.
    - pose proof (_get_stock_info_miss env ak c st E) as Hmiss. rewrite H in Hmiss.
      destruct (stock_individual_info_em ak c) as [df | e]; [| discriminate].
      destruct (df_empty df); [discriminate |].
      destruct (info_dict_of_rows df (data df) []) as [info1 | e]; [| discriminate].
      injection Hmiss as -> ->. simpl.
      destruct (Z.to_nat (MAX_CACHE_SIZE (settings env))) as [| k] eqn:Ek; [lia |].
      simpl. now rewrite String.eqb_refl. }
  eexists. rewrite (_get_stock_info_hit env ak' c st1 info Hget).
  repeat split.
Qed.

Lemma _get_stock_info_remembers_witness :
  exists st2,
    _get_stock_info Fixture.env0 Fixture.ak_down "600519"
      (snd (_get_stock_info Fixture.env0 (Fixture.ak_named "A") "600519" Fixture.fresh))
    = (Ok [(VStr "股票简称", VStr "A")], st2) /\
    calls st2
    = calls (snd (_get_stock_info Fixture.env0 (Fixture.ak_named "A") "600519"
                    Fixture.fresh)) /\
    _cache st2
    = _cache (snd (_get_stock_info Fixture.env0 (Fixture.ak_named "A") "600519"
                     Fixture.fresh)).
Proof.
  apply (_get_stock_info_remembers Fixture.env0 (Fixture.ak_named "A") Fixture.ak_down
           "600519" Fixture.fresh).
  - vm_compute. discriminate.
  - vm_compute. reflexivity.
Defined.

(** X10. A look-up that raises raises [StockDataError], has asked the
    provider exactly once, and leaves no trace in the table: the next
    look-up asks the provider again. *)
Theorem _get_stock_info_failure_not_remembered (env : Env) (ak : Provider)
    (c : string) (st st1 : State) (e : exn) :
  _get_stock_info env ak c st = (Raise e, st1) ->
  e = StockDataError /\
  st1 = asked c st /\
  dict_get String.eqb (_get_stock_info_cache st1) c = None.
Proof.
  intros H.
  destruct (dict_get String.eqb (_get_stock_info_cache st) c) as [info0 |] eqn:E.
  - rewrite (_get_stock_info_hit _ _ _ _ _ E) in H. discriminate.
  - pose proof (_get_stock_info_miss env ak c st E) as Hmiss. rewrite H in Hmiss.
    destruct (stock_individual_info_em ak c) as [df | e0].
    + destruct (df_empty df).
      * injection Hmiss as -> ->. repeat split. exact E.
      * destruct (info_dict_of_rows df (data df) []); [discriminate |].
        injection Hmiss as -> ->. repeat split. exact E.
    + injection Hmiss as -> ->. repeat split. exact E.
Qed.

Lemma _get_stock_info_failure_not_remembered_witness :
  StockDataError = StockDataError /\
  asked "600519" Fixture.fresh = asked "600519" Fixture.fresh /\
  dict_get String.eqb (_get_stock_info_cache (asked "600519" Fixture.fresh)) "600519"
  = None.
Proof.
  apply (_get_stock_info_failure_not_remembered Fixture.env0 Fixture.ak_down "600519"
           Fixture.fresh (asked "600519" Fixture.fresh) StockDataError).
  vm_compute. reflexivity.
Defined.

(* ================================================================= *)
(** ** The four fetches, continued *)

(** X11. None of the four fetches raises, and none of them touches the
    report cache or the time of the last sweep, whatever the provider
    answers. *)
Theorem fetches_never_raise (env : Env) (ak : Provider) (c : string) (st : State) :
  ((exists a, fst (_get_fundamental_data env ak c st) = Ok a) /\
   _cache (snd (_get_fundamental_data env ak c st)) = _cache st /\
   _last_clear_cache (snd (_get_fundamental_data env ak c st)) = _last_clear_cache st) /\
  ((exists a, fst (_get_valuation_data env ak c st) = Ok a) /\
   _cache (snd (_get_valuation_data env ak c st)) = _cache st /\
   _last_clear_cache (snd (_get_valuation_data env ak c st)) = _last_clear_cache st) /\
  ((exists a, fst (_get_technical_data env ak c st) = Ok a) /\
   _cache (snd (_get_technical_data env ak c st)) = _cache st /\
   _last_clear_cache (snd (_get_technical_data env ak c st)) = _last_clear_cache st) /\
  ((exists a, fst (_get_sentiment_data env ak c st) = Ok a) /\
   _cache (snd (_get_sentiment_data env ak c st)) = _cache st /\
   _last_clear_cache (snd (_get_sentiment_data env ak c st)) = _last_clear_cache st).
Proof.
  pose proof (keeps_get_fundamental_data env ak [ak] (or_introl eq_refl) c st) as K1.
  pose proof (keeps_get_valuation_data env ak [ak] (or_introl eq_refl) c st) as K2.
  pose proof (keeps_get_technical_data env ak [ak] c st) as K3.
  pose proof (keeps_get_sentiment_data env ak [ak] c st) as K4.
  repeat split;
    try apply total_get_fundamental_data; try apply total_get_valuation_data;
    try apply total_get_technical_data; try apply total_get_sentiment_data;
    try apply K1; try apply K2; try apply K3; try apply K4.
Qed.

(** X12. The sentiment fetch makes its two calls, the fund flow and then
    the concept boards, whatever the first one answers, and changes
    nothing else. *)
Theorem _get_sentiment_data_asks_twice (env : Env) (ak : Provider) (c : string)
    (st : State) :
  snd (_get_sentiment_data env ak c st)
  = with_calls (CallConcept "东方财富" :: CallFundFlow c (market_of c) :: calls st) st.
Proof.
  unfold _get_sentiment_data, try_except, bind, call, lift, ret.
  destruct (stock_individual_fund_flow ak c (market_of c)) as [fd | e];
    [destruct (fund_flow_data env fd) |];
    (destruct (stock_board_concept_cons_em ak "东方财富") as [cd | e'];
     [destruct (concepts_of c cd) |]);
    cbv beta iota; cbn [calls with_calls];
    match goal with
    | |- context [SentimentAnalysis_init ?d ?l] =>
        destruct (SentimentAnalysis_init d l)
    end; reflexivity.
Qed.

(** X13. The technical fetch asks for the spot quotes first, and for the
    history only when the spot quotes came back as a frame with a code
    column; it changes nothing else. *)
Theorem _get_technical_data_asks (env : Env) (ak : Provider) (c : string)
    (st : State) :
  snd (_get_technical_data env ak c st)
  = with_calls
      (match stock_zh_a_spot_em ak with
       | Ok current_data =>
           if existsb (String.eqb "代码") (columns current_data)
           then CallHist c :: CallSpot :: calls st
           else CallSpot :: calls st
       | Raise _ => CallSpot :: calls st
       end) st.
Proof.
  unfold _get_technical_data, try_except, bind, call, lift, ret, df_where_eq.
  destruct (stock_zh_a_spot_em ak) as [cd | e]; [| reflexivity].
  destruct (existsb (String.eqb "代码") (columns cd)); [| reflexivity].
  cbn [calls with_calls].
  destruct (stock_zh_a_hist ak c) as [hd | e]; [| reflexivity].
  destruct (technical_data env _ hd); reflexivity.
Qed.

(** X14. The fundamental fetch asks for the financial indicators exactly
    when its look-up of the basic information has returned. *)
Theorem _get_fundamental_data_asks (env : Env) (ak : Provider) (c : string)
    (st : State) :
  snd (_get_fundamental_data env ak c st)
  = match _get_stock_info env ak c st with
    | (Ok _, st1) => with_calls (CallFinancialIndicator c :: calls st1) st1
    | (Raise _, st1) => st1
    end.
Proof.
  destruct (_get_stock_info env ak c st) as [[info | e] st1] eqn:E.
  - now rewrite (_get_fundamental_data_eq env ak c st info st1 E).
  - now rewrite (_get_fundamental_data_default env ak c st e st1 E).
Qed.

(* ================================================================= *)
(** ** What the sections hold *)

Lemma kw_dict_set_other (d : kwargs) (k k' : string) (x : option spec_float) :
  k' <> k -> kw (dict_set String.eqb d k x) k' = kw d k'.
Proof. intros H. unfold kw. now rewrite dict_get_set_other. Qed.

Lemma kw_dict_set_same (d : kwargs) (k : string) (x : option spec_float) :
  kw (dict_set String.eqb d k x) k = x.
Proof. unfold kw. now rewrite dict_get_set_same. Qed.

Lemma set_float_other env (d d' : kwargs) (k : string) (v : pyval) (k' : string) :
  set_float env d k v = Ok d' -> k' <> k -> kw d' k' = kw d k'.
Proof.
  destruct (set_float_returns env d k v) as [x ->]. intros [= <-].
  apply kw_dict_set_other.
Qed.

Lemma set_float_same env (d d' : kwargs) (k : string) (v : pyval) :
  set_float env d k v = Ok d' ->
  Ok (kw d' k) = _safe_get_float (runtime env) v None.
Proof.
  unfold set_float, R.bind.
  destruct (_safe_get_float (runtime env) v None) as [x | e]; [| discriminate].
  intros [= <-]. now rewrite kw_dict_set_same.
Qed.

(** Taking a chain of assignments apart *)
Ltac bind_inv H :=
  repeat match type of H with
         | R.bind ?m _ = Ok _ =>
             let E := fresh "E" in
             destruct m eqn:E; cbn [R.bind] in H; [| discriminate H]
         end.

(** The value of a key after a chain of assignments to other keys *)
Ltac kw_skip :=
  repeat match goal with
         | E : set_float _ ?d0 ?k _ = Ok ?d1 |- context [kw ?d1 ?k'] =>
             rewrite (set_float_other _ d0 d1 k _ k' E) by discriminate
         end.

(** The value of a key at the assignment that sets it *)
Ltac kw_here :=
  match goal with
  | E : set_float _ _ ?k _ = Ok ?d1 |- Ok (kw ?d1 ?k) = _ =>
      exact (set_float_same _ _ _ _ _ E)
  end.

Lemma valuation_data_returns env info :
  exists d, valuation_data env info = Ok d.
Proof.
  unfold valuation_data.
  repeat match goal with
         | |- context [set_float env ?d ?k ?v] =>
             let x := fresh "x" in
             destruct (set_float_returns env d k v) as [x ->]; cbn [R.bind]
         end.
  eauto.
Qed.

(** X15. When its look-up of the basic information returns, the valuation
    fetch returns a model in which each of the six ratios is the coerced
    value of its own item of the basic information, and the other six
    fields are [None]. *)
Theorem _get_valuation_data_fields (env : Env) (ak : Provider) (c : string)
    (st st1 : State) (info : info_dict) :
  _get_stock_info env ak c st = (Ok info, st1) ->
  exists v,
    fst (_get_valuation_data env ak c st) = Ok v /\
    Ok (pe_ratio_static v)
    = _safe_get_float (runtime env) (info_get info "市盈率-静态" VNone) None /\
    Ok (pe_ratio_dynamic v)
    = _safe_get_float (runtime env) (info_get info "市盈率-动态" VNone) None /\
    Ok (pe_ratio_ttm v)
    = _safe_get_float (runtime env) (info_get info "市盈率TTM" VNone) None /\
    Ok (pb_ratio v) = _safe_get_float (runtime env) (info_get info "市净率" VNone) None /\
    Ok (ps_ratio v) = _safe_get_float (runtime env) (info_get info "市销率" VNone) None /\
    Ok (dividend_yield v)
    = _safe_get_float (runtime env) (info_get info "股息率" VNone) None /\
    ev_ebitda v = None /\ peg_ratio v = None /\
    industry_pe_median v = None /\ industry_pb_median v = None /\
    pe_percentile_1y v = None /\ pb_percentile_1y v = None.
Proof.
  intros H. rewrite (_get_valuation_data_eq env ak c st info st1 H). cbn [fst].
  eexists. split; [reflexivity |].
  unfold valuation_section.
  destruct (valuation_data_returns env info) as [d Hd]. rewrite Hd.
  unfold valuation_data in Hd. bind_inv Hd.
  cbn [pe_ratio_static pe_ratio_dynamic pe_ratio_ttm pb_ratio ps_ratio dividend_yield
       ev_ebitda peg_ratio industry_pe_median industry_pb_median pe_percentile_1y
       pb_percentile_1y ValuationAnalysis_init].
  repeat split; kw_skip; try kw_here; reflexivity.
Qed.

Lemma _get_valuation_data_fields_witness :
  exists v,
    fst (_get_valuation_data Fixture.env0
           {| stock_individual_info_em := fun _ =>
                Ok (Fixture.frame_of ["item"; "value"]
                      [[VStr "市净率"; VStr "inf"]; [VStr "市销率"; VStr "-"]]);
              stock_financial_analysis_indicator := fun _ => Raise ProviderError;
              stock_zh_a_spot_em := Raise ProviderError;
              stock_zh_a_hist := fun _ => Raise ProviderError;
              stock_individual_fund_flow := fun _ _ => Raise ProviderError;
              stock_board_concept_cons_em := fun _ => Raise ProviderError |}
           "600519" Fixture.fresh) = Ok v /\
    pb_ratio v = Some (S754_infinity false) /\ ps_ratio v = None /\ peg_ratio v = None.
Proof.
  destruct (_get_valuation_data_fields Fixture.env0
              {| stock_individual_info_em := fun _ =>
                   Ok (Fixture.frame_of ["item"; "value"]
                         [[VStr "市净率"; VStr "inf"]; [VStr "市销率"; VStr "-"]]);
                 stock_financial_analysis_indicator := fun _ => Raise ProviderError;
                 stock_zh_a_spot_em := Raise ProviderError;
                 stock_zh_a_hist := fun _ => Raise ProviderError;
                 stock_individual_fund_flow := fun _ _ => Raise ProviderError;
                 stock_board_concept_cons_em := fun _ => Raise ProviderError |}
              "600519" Fixture.fresh _
              [(VStr "市净率", VStr "inf"); (VStr "市销率", VStr "-")]
              ltac:(vm_compute; reflexivity))
    as (v & Hv & _ & _ & _ & Hpb & Hps & _ & _ & Hpeg & _).
  exists v. split; [exact Hv |].
  split; [| split; [| exact Hpeg]].
  - vm_compute in Hpb. now injection Hpb.
  - vm_compute in Hps. now injection Hps.
Defined.


Lemma iloc_first_nonempty (df : DataFrame) :
  df_empty df = false -> exists row, iloc_first df = Ok row.
Proof.
  unfold df_empty, iloc_first.
  destruct (columns df); [discriminate |].
  destruct (data df) as [| r rows]; [discriminate | eauto].
Qed.

Ltac run_set_floats :=
  repeat match goal with
         | |- context [set_float ?env ?d ?k ?v] =>
             let x := fresh "x" in
             destruct (set_float_returns env d k v) as [x ->]; cbn [R.bind]
         end.





Lemma technical_data_first_block env sc :
  exists d0,
    (if negb (df_empty sc) then
       (current_row <- iloc_first sc ;;
        d <- set_float env [] "current_price" (series_get current_row "最新价") ;;
        d <- set_float env d "price_change" (series_get current_row "涨跌额") ;;
        d <- set_float env d "price_change_percent" (series_get current_row "涨跌幅") ;;
        d <- set_float env d "volume" (series_get current_row "成交量") ;;
        d <- set_float env d "turnover" (series_get current_row "成交额") ;;
        d <- set_float env d "turnover_rate" (series_get current_row "换手率") ;;
        d <- set_float env d "day_high" (series_get current_row "最高") ;;
        set_float env d "day_low" (series_get current_row "最低"))%R
     else Ok []) = Ok d0 /\
    (forall k, ~ In k ["current_price"; "price_change"; "price_change_percent";
                        "volume"; "turnover"; "turnover_rate"; "day_high"; "day_low"] ->
               kw d0 k = None) /\
    (df_empty sc = true -> d0 = []) /\
    (forall row,
        df_empty sc = false -> iloc_first sc = Ok row ->
        Ok (kw d0 "current_price")
        = _safe_get_float (runtime env) (series_get row "最新价") None /\
        Ok (kw d0 "price_change")
        = _safe_get_float (runtime env) (series_get row "涨跌额") None /\
        Ok (kw d0 "price_change_percent")
        = _safe_get_float (runtime env) (series_get row "涨跌幅") None /\
        Ok (kw d0 "volume")
        = _safe_get_float (runtime env) (series_get row "成交量") None /\
        Ok (kw d0 "turnover")
        = _safe_get_float (runtime env) (series_get row "成交额") None /\
        Ok (kw d0 "turnover_rate")
        = _safe_get_float (runtime env) (series_get row "换手率") None /\
        Ok (kw d0 "day_high")
        = _safe_get_float (runtime env) (series_get row "最高") None /\
        Ok (kw d0 "day_low")
        = _safe_get_float (runtime env) (series_get row "最低") None).
Proof.
  destruct (df_empty sc) eqn:Eempty; cbn [negb].
  - exists []. repeat split; auto; discriminate.
  - destruct (iloc_first_nonempty sc Eempty) as [row Hrow]. rewrite Hrow. cbn [R.bind].
    match goal with
    | |- exists d0, ?m = Ok d0 /\ _ =>
        destruct m as [d0 | e] eqn:Hd; [| exfalso; revert Hd; run_set_floats; discriminate]
    end.
    exists d0. split; [reflexivity |]. bind_inv Hd.
    split; [| split; [discriminate |]].
    + intros k Hk.
      repeat match goal with
             | E : set_float _ ?d1 ?k1 _ = Ok ?d2 |- context [kw ?d2 k] =>
                 rewrite (set_float_other _ d1 d2 k1 _ k E)
                   by (intros ->; apply Hk; simpl; tauto)
             end.
      reflexivity.
    + intros row' _ [= <-]. repeat split; kw_skip; kw_here.
Qed.

(** X17. The technical fetch always returns a model whose RSI, MACD and
    Bollinger fields are [None]; and when the history has fewer than 60
    rows (or did not come back), the four moving averages and the two
    52-week marks are [None] as well. *)
Theorem _get_technical_data_short_history (env : Env) (ak : Provider) (c : string)
    (st : State) :
  exists t,
    fst (_get_technical_data env ak c st) = Ok t /\
    (rsi_6 t = None /\ rsi_12 t = None /\ rsi_24 t = None /\
     macd_dif t = None /\ macd_dea t = None /\ macd_histogram t = None /\
     boll_upper t = None /\ boll_middle t = None /\ boll_lower t = None) /\
    ((forall hd, stock_zh_a_hist ak c = Ok hd -> df_len hd < 60) ->
     ma_5 t = None /\ ma_10 t = None /\ ma_20 t = None /\ ma_60 t = None /\
     week_52_high t = None /\ week_52_low t = None).
Proof.
  rewrite _get_technical_data_eq. eexists. split; [reflexivity |].
  unfold technical_section.
  destruct (stock_zh_a_spot_em ak) as [cd | e];
    [| split; [| intros _]; repeat split; reflexivity].
  destruct (df_where_eq cd "代码" c) as [sc | e];
    [| split; [| intros _]; repeat split; reflexivity].
  destruct (stock_zh_a_hist ak c) as [hd | e];
    [| split; [| intros _]; repeat split; reflexivity].
  unfold technical_data.
  destruct (technical_data_first_block env sc) as (d0 & -> & Hother & _).
  cbn [R.bind].
  destruct (negb (df_empty hd) && (60 <=? df_len hd)) eqn:Elong.
  - destruct (df_getitem hd "收盘") as [close | e]; cbn [R.bind];
      [| split; [| intros _]; repeat split; reflexivity].
    cbn [rsi_6 rsi_12 rsi_24 macd_dif macd_dea macd_histogram boll_upper boll_middle
         boll_lower ma_5 ma_10 ma_20 ma_60 week_52_high week_52_low
         TechnicalAnalysis_init].
    split.
    + repeat split; rewrite !kw_dict_set_other by discriminate;
        apply Hother; simpl; intuition discriminate.
    + intros Hshort. specialize (Hshort hd eq_refl).
      apply andb_true_iff in Elong. destruct Elong as [_ Hlen].
      apply Z.leb_le in Hlen. lia.
  - cbn [rsi_6 rsi_12 rsi_24 macd_dif macd_dea macd_histogram boll_upper boll_middle
         boll_lower ma_5 ma_10 ma_20 ma_60 week_52_high week_52_low
         TechnicalAnalysis_init].
    split; [| intros _]; repeat split; apply Hother; simpl; intuition discriminate.
Qed.







(* ================================================================= *)
(** ** The service and the endpoints, continued *)

Lemma In_dict_set {V} (d : list (string * V)) (k : string) (v : V) (x : string * V) :
  In x (dict_set String.eqb d k v) -> In x d \/ x = (k, v).
Proof.
  induction d as [| [k' v'] d IH]; simpl.
  - intros [<- | []]. now right.
  - destruct (String.eqb k' k) eqn:E; simpl.
    + apply String.eqb_eq in E. subst k'. intros [<- | H]; auto.
    + intros [<- | H]; auto. destruct (IH H); auto.
Qed.


(** X20. A call of [get_full_stock_report] that raises raises
    [StockNotFoundError] or [StockDataError], and stores nothing: every
    entry of the cache after the call was there before it. *)
Theorem failed_request_stores_nothing (env : Env) (ak : Provider) (c : string)
    (st st' : State) (e : exn) :
  get_full_stock_report env ak c st = (Raise e, st') ->
  (e = StockNotFoundError \/ e = StockDataError) /\
  forall x, In x (_cache st') -> In x (_cache st).
Proof.
  destruct (get_full_stock_report_cases env ak c st)
    as [(r & t & _ & _ & ->) | (st1 & (_ & _ & _ & _ & HP) & ->)]; [discriminate |].
  pose proof (build_report_spec env ak [ak] (or_introl eq_refl) c
                (_get_cache_key c) st1) as Hspec.
  specialize (HP (fun x => In x (_cache st))).
  rewrite !Forall_forall in HP. specialize (HP (fun x H => H)).
  destruct (build_report env ak c (_get_cache_key c) st1) as [[r | e1] st1'];
    [discriminate |].
  destruct Hspec as (_ & Hc & _).
  destruct e1; simpl; intros [= <- <-]; (split; [auto |]);
    intros x Hx; apply HP; now rewrite <- Hc.
Qed.

Lemma failed_request_stores_nothing_witness :
  (StockDataError = StockNotFoundError \/ StockDataError = StockDataError) /\
  In (_get_cache_key "600519", (Fixture.report_of "600519" "A" 0, 0))
     (_cache (Fixture.one_entry_state (seconds 200))).
Proof.
  destruct (failed_request_stores_nothing (Fixture.env_of (seconds 400) 1)
              Fixture.ak_down "600519" (Fixture.one_entry_state (seconds 200))
              (snd (get_full_stock_report (Fixture.env_of (seconds 400) 1)
                      Fixture.ak_down "600519" (Fixture.one_entry_state (seconds 200))))
              StockDataError ltac:(vm_compute; reflexivity)) as [He Hin].
  split; [exact He |].
  apply Hin. vm_compute. left. reflexivity.
Defined.

(** X21. A call of [get_full_stock_report] that returns a report writes at
    most one entry: every entry of the cache after the call was there
    before it, or is the returned report under the key of the requested
    ticker. *)
Theorem successful_request_writes_one_entry (env : Env) (ak : Provider)
    (c : string) (st st' : State) (r : StockReport) :
  get_full_stock_report env ak c st = (Ok r, st') ->
  forall x,
    In x (_cache st') ->
    In x (_cache st) \/ exists t, x = (_get_cache_key c, (r, t)).
Proof.
  destruct (get_full_stock_report_cases env ak c st)
    as [(r0 & t & _ & _ & ->) | (st1 & (_ & _ & _ & _ & HP) & ->)].
  - intros [= <- <-] x Hx. now left.
  - pose proof (build_report_spec env ak [ak] (or_introl eq_refl) c
                  (_get_cache_key c) st1) as Hspec.
    specialize (HP (fun x => In x (_cache st))).
    rewrite !Forall_forall in HP. specialize (HP (fun x H => H)).
    destruct (build_report env ak c (_get_cache_key c) st1) as [[r1 | e1] st1'];
      [| destruct e1; discriminate].
    destruct Hspec as (info & st5 & (Hc5 & _) & _ & _ & _ & _ & _ & _ & _ & ->).
    cbn [reraise]. intros [= <- <-] x. unfold stored.
    destruct (dict_len (_cache st5) <? MAX_CACHE_SIZE (settings env));
      cbn [_cache with_cache with_ticks]; rewrite Hc5; intros Hx.
    + apply In_dict_set in Hx. destruct Hx as [Hx | ->]; [left; now apply HP | right; eauto].
    + left. now apply HP.
Qed.

Lemma successful_request_writes_one_entry_witness :
  In (_get_cache_key "000001", (Fixture.report_of "000001" "A" 1, 2))
     (_cache (Fixture.one_entry_state 0)) \/
  exists t,
    (_get_cache_key "000001", (Fixture.report_of "000001" "A" 1, 2))
    = (_get_cache_key "000001", (Fixture.report_of "000001" "A" 1, t)).
Proof.
  apply (successful_request_writes_one_entry Fixture.env0 (Fixture.ak_named "A")
           "000001" (Fixture.one_entry_state 0)
           (snd (get_full_stock_report Fixture.env0 (Fixture.ak_named "A") "000001"
                   (Fixture.one_entry_state 0)))).
  - vm_compute. reflexivity.
  - vm_compute. right. left. reflexivity.
Defined.


(** X23. The basic information is not refreshed with the report.  When the
    table of [_get_stock_info] holds a dictionary for the ticker, a call
    that is not served from the report cache builds its report from that
    dictionary, the name and the valuation section included, whatever the
    provider answers for the basic information by then. *)
Theorem remembered_info_is_reused (env : Env) (ak : Provider) (c : string)
    (st st0 : State) (info : info_dict) (n : string) :
  six_digits c ->
  cache_lookup env (_get_cache_key c) st = (Ok None, st0) ->
  dict_get String.eqb (_get_stock_info_cache st) c = Some info ->
  stock_name_of info = VStr n ->
  n <> EmptyString ->
  exists r st',
    get_full_stock_report env ak c st = (Ok r, st') /\
    name r = n /\
    valuation_analysis r = valuation_section env info /\
    fundamental_analysis r
    = fundamental_section env info (stock_financial_analysis_indicator ak c).
Proof.
  intros Hc Hmiss Hmemo Hname Hn.
  rewrite (get_full_stock_report_miss env ak c st st0 Hmiss).
  set (st1 := snd (_clear_expired_cache env st0)).
  assert (Hmemo1 : dict_get String.eqb (_get_stock_info_cache st1) c = Some info).
  { destruct (_clear_expired_cache_shrinks env st0) as (_ & Hm & _).
    fold st1 in Hm. rewrite Hm.
    destruct (cache_lookup_cases env (_get_cache_key c) st)
      as [(r & t & _ & _ & H) | (st0' & H & _ & _ & Hm0 & _)];
      rewrite Hmiss in H; [discriminate |].
    injection H as ->. now rewrite Hm0. }
  destruct (build_report_sections env ak c (_get_cache_key c) st1 info _ n Hc
              (_get_stock_info_hit env ak c st1 info Hmemo1) Hname Hn)
    as (t & st' & ->).
  eexists. eexists. split; [reflexivity |]. repeat split.
Qed.

Lemma remembered_info_is_reused_witness :
  exists r st',
    get_full_stock_report (Fixture.env_of 0 (seconds 301)) (Fixture.ak_named "B")
      "600519"
      (snd (get_full_stock_report (Fixture.env_of 0 (seconds 301)) (Fixture.ak_named "A")
              "600519" (StockService_init (Fixture.env_of 0 (seconds 301)))))
    = (Ok r, st') /\
    name r = "A".
Proof.
  destruct (remembered_info_is_reused (Fixture.env_of 0 (seconds 301))
              (Fixture.ak_named "B") "600519"
              (snd (get_full_stock_report (Fixture.env_of 0 (seconds 301))
                      (Fixture.ak_named "A") "600519"
                      (StockService_init (Fixture.env_of 0 (seconds 301)))))
              _ [(VStr "股票简称", VStr "A")] "A"
              (conj eq_refl eq_refl)
              ltac:(vm_compute; reflexivity) ltac:(vm_compute; reflexivity)
              eq_refl ltac:(discriminate))
    as (r & st' & Hrun & Hname & _).
  exists r, st'. split; assumption.
Defined.


(* ================================================================= *)
(** ** The validators and the placeholder endpoint *)









(* ================================================================= *)
(** ** The dictionary of the basic information *)

Lemma float_eqb_eq (x y : spec_float) : float_eqb x y = true <-> x = y.
Proof.
  destruct x as [a | a | | a m e], y as [b | b | | b m' e']; simpl;
    try (split; [discriminate | congruence]).
  - rewrite Bool.eqb_true_iff. split; congruence.
  - rewrite Bool.eqb_true_iff. split; congruence.
  - split; reflexivity.
  - rewrite !andb_true_iff, Bool.eqb_true_iff, Pos.eqb_eq, Z.eqb_eq.
    split; [intros [[-> ->] ->]; reflexivity | intros [= -> -> ->]; auto].
Qed.

Lemma pyval_eqb_eq (x y : pyval) : pyval_eqb x y = true <-> x = y.
Proof.
  destruct x as [| s | z | f], y as [| s' | z' | f']; simpl;
    try (split; [discriminate | congruence]).
  - split; reflexivity.
  - rewrite String.eqb_eq. split; congruence.
  - rewrite Z.eqb_eq. split; congruence.
  - rewrite float_eqb_eq. split; congruence.
Qed.

Lemma info_dict_get_set (d : info_dict) (k q v : pyval) :
  dict_get pyval_eqb (dict_set pyval_eqb d k v) q
  = if pyval_eqb k q then Some v else dict_get pyval_eqb d q.
Proof.
  induction d as [| [k' v'] d IH]; simpl; [reflexivity |].
  destruct (pyval_eqb k' k) eqn:E; simpl.
  - apply pyval_eqb_eq in E. subst k'. now destruct (pyval_eqb k q).
  - rewrite IH. destruct (pyval_eqb k' q) eqn:E'; [| reflexivity].
    apply pyval_eqb_eq in E'. subst k'.
    destruct (pyval_eqb k q) eqn:E''; [| reflexivity].
    apply pyval_eqb_eq in E''. subst k.
    assert (pyval_eqb q q = true) by now apply pyval_eqb_eq. congruence.
Qed.

(** The row carries the item [k] *)
Definition row_has_item (df : DataFrame) (k : string) (r : list pyval) : bool :=
  match series_get (label df r) "item" with
  | VStr s => String.eqb s k
  | _ => false
  end.

Lemma find_app_last {A} (p : A -> bool) (l : list A) (x : A) :
  find p (l ++ [x]) = match find p l with
                      | Some y => Some y
                      | None => if p x then Some x else None
                      end.
Proof.
  induction l as [| y l IH]; simpl; [reflexivity |].
  now destruct (p y).
Qed.

Lemma info_dict_of_rows_get (df : DataFrame) (k : string) (rows : list (list pyval))
    (acc info : info_dict) :
  info_dict_of_rows df rows acc = Ok info ->
  dict_get pyval_eqb info (VStr k)
  = match find (row_has_item df k) (rev rows) with
    | Some r => Some (series_get (label df r) "value")
    | None => dict_get pyval_eqb acc (VStr k)
    end.
Proof.
  revert acc. induction rows as [| r rows IH]; intros acc; simpl.
  - now intros [= <-].
  - unfold series_getitem, R.bind.
    destruct (dict_get String.eqb (label df r) "value") as [value |] eqn:Ev;
      [| discriminate].
    destruct (dict_get String.eqb (label df r) "item") as [item |] eqn:Ei;
      [| discriminate].
    intros H. rewrite (IH _ H), find_app_last.
    destruct (find (row_has_item df k) (rev rows)); [reflexivity |].
    rewrite info_dict_get_set.
    assert (Hrow : row_has_item df k r = pyval_eqb item (VStr k)).
    { unfold row_has_item, series_get. rewrite Ei.
      destruct item as [| s | z | f]; reflexivity. }
    rewrite Hrow. destruct (pyval_eqb item (VStr k)); [| reflexivity].
    unfold series_get. now rewrite Ev.
Qed.

(** X28. In the dictionary that [_get_stock_info] builds from a frame, the
    value of an item is the value of the last row that carries the item;
    an item that no row carries is not in the dictionary, and a look-up
    with [get] gives the default. *)
Theorem info_dict_last_row_wins (df : DataFrame) (info : info_dict) (k : string)
    (default : pyval) :
  info_dict_of_rows df (data df) [] = Ok info ->
  info_get info k default
  = match find (row_has_item df k) (rev (data df)) with
    | Some r => series_get (label df r) "value"
    | None => default
    end.
Proof.
  intros H. unfold info_get. rewrite (info_dict_of_rows_get df k _ [] info H).
  now destruct (find (row_has_item df k) (rev (data df))).
Qed.

Lemma info_dict_last_row_wins_witness :
  info_get [(VStr "总市值", VStr "2"); (VStr "股票简称", VStr "A")] "总市值" VNone
  = VStr "2".
Proof.
  apply (info_dict_last_row_wins
           (Fixture.frame_of ["item"; "value"]
              [[VStr "总市值"; VStr "1"]; [VStr "股票简称"; VStr "A"];
               [VStr "总市值"; VStr "2"]])
           [(VStr "总市值", VStr "2"); (VStr "股票简称", VStr "A")] "总市值" VNone).
  vm_compute. reflexivity.
Defined.
